(** * Mr. Provisioner Ansible modules: a shallow embedding in Rocq

    The modules of [library/] talk to a Mr. Provisioner service over HTTP:
    - [mr_provisioner_get_ip.py]: [IPGetter] (machine lookup, IP selection);
    - [mr_provisioner_netboot_switch.py]: [NetbootSwitcher] and its
      [run_module] (lookup, sleep, PUT of the machine with the flag cleared);
    - [mr_provisioner_preseed.py] and [preseed_upload_module.py]: two
      versions of [PreseedUploader] (existence check, then POST or PUT).

    Python values coming from [r.json()] are modelled as [json]; exceptions
    as [exn]; the world seen by a module (remote service, clock, local
    files, request log) is threaded through a state-and-exception monad.
    Text is held as its UTF-8 bytes. [mr_provisioner_get_ip.py] imports
    [urlparse] and runs under Python 2.7; the other modules are modelled
    under Python 3.11. The machine search URL is built as under Python 3
    for both resolvers (Python 2's [quote] also escapes '~'). *)

From Stdlib Require Import String Ascii List ZArith Bool Lia.
From Stdlib Require Import DecimalString DecimalPos DecimalZ.
Import ListNotations.
Open Scope string_scope.
Open Scope Z_scope.

Set Warnings "-register-all".

(** ** Python values *)

(** Values decoded by [r.json()]: JSON documents. *)
Inductive json : Type :=
| JNull
| JBool (b : bool)
| JInt (z : Z)
| JStr (s : string)
| JList (l : list json)
| JObj (kvs : list (string * json)).

(** [str(int)]: decimal rendering of an integer. *)
Definition str_of_Z (z : Z) : string :=
  NilZero.string_of_int (Z.to_int z).

Fixpoint str_join (sep : string) (l : list string) : string :=
  match l with
  | [] => ""
  | [x] => x
  | x :: r => x ++ sep ++ str_join sep r
  end.

(** [repr] of a decoded value (strings are shown between single quotes,
    without escaping). *)
Fixpoint py_repr (v : json) : string :=
  match v with
  | JNull => "None"
  | JBool true => "True"
  | JBool false => "False"
  | JInt z => str_of_Z z
  | JStr s => "'" ++ s ++ "'"
  | JList l => "[" ++ str_join ", " (map py_repr l) ++ "]"
  | JObj kvs =>
      "{" ++ str_join ", "
        (map (fun kv => "'" ++ fst kv ++ "': " ++ py_repr (snd kv)) kvs) ++ "}"
  end.

(** [str(v)]: as [repr], except that a string is shown as itself. *)
Definition py_str (v : json) : string :=
  match v with
  | JStr s => s
  | _ => py_repr v
  end.

(** Truth value of a decoded value ([if v:], [and]). *)
Definition truthy (v : json) : bool :=
  match v with
  | JNull => false
  | JBool b => b
  | JInt z => negb (Z.eqb z 0)
  | JStr s => negb (String.eqb s "")
  | JList l => negb (Nat.eqb (length l) 0)
  | JObj kvs => negb (Nat.eqb (length kvs) 0)
  end.

(** [v == s] for a Python string [s]: only a string equal to [s] compares
    equal. *)
Definition eq_str (v : json) (s : string) : bool :=
  match v with
  | JStr t => String.eqb t s
  | _ => false
  end.

(** [v != -1]: only the integer -1 compares equal to -1. *)
Definition ne_minus1 (v : json) : bool :=
  match v with
  | JInt z => negb (Z.eqb z (-1))
  | _ => true
  end.

(** ** Exceptions *)

(** The formatted messages of [ProvisionerError] raised by the modules. *)
Inductive msg : Type :=
| MsgFetch (url : string) (status : Z) (reason : string)
    (* 'Error fetching {}, HTTP {} {}' *)
| MsgNoAssigned (name : string)
    (* 'Error no assigned machine found with name "{}"' *)
| MsgMoreThanOne (name : string) (found : json)
    (* 'Error more than one machine found with name "{}", {}' *)
| MsgNoId (name : string)
    (* "No ID found for machine {}" *)
| MsgNoMachineId (id : json)
    (* 'Error no machine with id "{}"' *)
| MsgPutMachine (url : string) (status : Z) (reason : string)
    (* 'Error PUTing {}, HTTP {} {}' *)
| MsgPostPreseed (name : string) (status : Z) (reason : string)
    (* 'Error posting preseed {}, HTTP {}<U+00A0>{}' (preseed_upload_module.py) *)
| MsgPutPreseed (name : string) (id : json) (status : Z) (reason : string)
    (* 'Error putting preseed {} at ID {}, HTTP {} {}' (preseed_upload_module.py) *)
| MsgPostPreseedWrapped (name : string) (status : Z) (reason : string)
    (* the same, in mr_provisioner_preseed.py, where a backslash continues
       the literal on a new line: 40 spaces between ',' and 'HTTP' *)
| MsgPutPreseedWrapped (name : string) (id : json) (status : Z) (reason : string)
    (* the same, in mr_provisioner_preseed.py: 36 spaces between ',' and
       'HTTP' *)
| MsgIdUndefined.
    (* 'preseed ID is undefined, please use upload_preseed' *)

Definition dq : string := String (ascii_of_nat 34) EmptyString.

(** U+00A0 (no-break space), in UTF-8. *)
Definition nbsp : string :=
  String (ascii_of_nat 194) (String (ascii_of_nat 160) EmptyString).

Fixpoint spaces (n : nat) : string :=
  match n with
  | O => EmptyString
  | S k => String " " (spaces k)
  end.

(** [str(e)] for a [ProvisionerError]. *)
Definition render (m : msg) : string :=
  match m with
  | MsgFetch u st rs =>
      "Error fetching " ++ u ++ ", HTTP " ++ str_of_Z st ++ " " ++ rs
  | MsgNoAssigned n =>
      "Error no assigned machine found with name " ++ dq ++ n ++ dq
  | MsgMoreThanOne n v =>
      "Error more than one machine found with name " ++ dq ++ n ++ dq
        ++ ", " ++ py_str v
  | MsgNoId n => "No ID found for machine " ++ n
  | MsgNoMachineId i => "Error no machine with id " ++ dq ++ py_str i ++ dq
  | MsgPutMachine u st rs =>
      "Error PUTing " ++ u ++ ", HTTP " ++ str_of_Z st ++ " " ++ rs
  | MsgPostPreseed n st rs =>
      "Error posting preseed " ++ n ++ ", HTTP " ++ str_of_Z st ++ nbsp ++ rs
  | MsgPutPreseed n i st rs =>
      "Error putting preseed " ++ n ++ " at ID " ++ py_str i ++ ", HTTP "
        ++ str_of_Z st ++ " " ++ rs
  | MsgPostPreseedWrapped n st rs =>
      "Error posting preseed " ++ n ++ "," ++ spaces 40 ++ "HTTP "
        ++ str_of_Z st ++ nbsp ++ rs
  | MsgPutPreseedWrapped n i st rs =>
      "Error putting preseed " ++ n ++ " at ID " ++ py_str i ++ ","
        ++ spaces 36 ++ "HTTP " ++ str_of_Z st ++ " " ++ rs
  | MsgIdUndefined => "preseed ID is undefined, please use upload_preseed"
  end.

Inductive exn : Type :=
| ProvisionerError (m : msg)
| TypeError
| KeyError
| IndexError
| ValueError            (* int() of a malformed literal, time.sleep(-n) *)
| OverflowError         (* time.sleep of a length too large for the clock *)
| UnboundLocalError     (* a subclass of NameError *)
| FileNotFoundError.

(** [isinstance(e, NameError)]. *)
Definition is_NameError (e : exn) : bool :=
  match e with
  | UnboundLocalError => true
  | _ => false
  end.

Inductive outcome (A : Type) : Type :=
| Ret (a : A)
| Raise (e : exn).
Arguments Ret {A} a.
Arguments Raise {A} e.

(** ** Pure Python operations on decoded values *)

Fixpoint assoc (k : string) (kvs : list (string * json)) : option json :=
  match kvs with
  | [] => None
  | (k', v) :: r => if String.eqb k' k then Some v else assoc k r
  end.

(** [d[k]] with a string key. *)
Definition getitem (v : json) (k : string) : outcome json :=
  match v with
  | JObj kvs => match assoc k kvs with Some x => Ret x | None => Raise KeyError end
  | _ => Raise TypeError
  end.

(** [d[k] = x]: an existing key keeps its place, a new one is appended. *)
Fixpoint assoc_set (k : string) (x : json) (kvs : list (string * json))
  : list (string * json) :=
  match kvs with
  | [] => [(k, x)]
  | (k', v) :: r => if String.eqb k' k then (k', x) :: r else (k', v) :: assoc_set k x r
  end.

Definition setitem (v : json) (k : string) (x : json) : outcome json :=
  match v with
  | JObj kvs => Ret (JObj (assoc_set k x kvs))
  | _ => Raise TypeError
  end.

(** [len(v)]. *)
Definition py_len (v : json) : outcome Z :=
  match v with
  | JList l => Ret (Z.of_nat (length l))
  | JObj kvs => Ret (Z.of_nat (length kvs))
  | JStr s => Ret (Z.of_nat (String.length s))
  | _ => Raise TypeError
  end.

(** [v[0]]. *)
Definition index0 (v : json) : outcome json :=
  match v with
  | JList (x :: _) => Ret x
  | JList [] => Raise IndexError
  | JStr (String c _) => Ret (JStr (String c EmptyString))
  | JStr EmptyString => Raise IndexError
  | JObj _ => Raise KeyError
  | _ => Raise TypeError
  end.

Fixpoint str_chars (s : string) : list json :=
  match s with
  | EmptyString => []
  | String c r => JStr (String c EmptyString) :: str_chars r
  end.

(** [for x in v]: the elements of a list, the keys of a dict, the
    characters of a string. *)
Definition py_iter (v : json) : outcome (list json) :=
  match v with
  | JList l => Ret l
  | JObj kvs => Ret (map (fun kv => JStr (fst kv)) kvs)
  | JStr s => Ret (str_chars s)
  | _ => Raise TypeError
  end.

(** [k in v] for a string [k] ([in] on a dict, a list or a string). *)
Definition py_in (k : string) (v : json) : outcome bool :=
  match v with
  | JObj kvs => Ret (match assoc k kvs with Some _ => true | None => false end)
  | JList l => Ret (existsb (fun x => eq_str x k) l)
  | JStr s => Ret (match String.index 0 k s with Some _ => true | None => false end)
  | _ => Raise TypeError
  end.

(** *** [int(s)] on a [str] (Python 3.11, base 10)

    Text is held as its UTF-8 bytes. [int] first maps the code points of
    [s] to ASCII ([_PyUnicode_TransformDecimalAndSpaceToASCII]): below 127
    a code point is kept, a Unicode space becomes [' '], a Unicode decimal
    digit its ASCII digit, and anything else ['?'], where the copy stops.
    The result is then read by [PyLong_FromString]. The two tables below
    are those of Python 3.11 (Unicode 14.0.0). *)

(** Code points for which [str.isspace] holds. *)
Definition unicode_spaces : list Z :=
  [9; 10; 11; 12; 13; 28; 29; 30; 31; 32; 133; 160; 5760; 8192; 8193; 8194;
    8195; 8196; 8197; 8198; 8199; 8200; 8201; 8202; 8232; 8233; 8239; 8287;
    12288].

(** The code points of digit zero of the 66 runs of ten Unicode decimal
    digits ([str.isdecimal]); each run holds the digits 0 to 9 in order. *)
Definition decimal_zeros : list Z :=
  [48; 1632; 1776; 1984; 2406; 2534; 2662; 2790; 2918; 3046; 3174; 3302;
    3430; 3558; 3664; 3792; 3872; 4160; 4240; 6112; 6160; 6470; 6608; 6784;
    6800; 6992; 7088; 7232; 7248; 42528; 43216; 43264; 43472; 43504; 43600;
    44016; 65296; 66720; 68912; 69734; 69872; 69942; 70096; 70384; 70736;
    70864; 71248; 71360; 71472; 71904; 72016; 72784; 73040; 73120; 92768;
    92864; 93008; 120782; 120792; 120802; 120812; 120822; 123200; 123632;
    125264; 130032].

Definition py_unicode_isspace (c : Z) : bool := existsb (Z.eqb c) unicode_spaces.

(** [Py_UNICODE_TODECIMAL]. *)
Definition py_unicode_todecimal (c : Z) : option Z :=
  match find (fun z => (z <=? c) && (c <=? z + 9)) decimal_zeros with
  | Some z => Some (c - z)
  | None => None
  end.

Definition cont_byte (c : ascii) : option Z :=
  let n := Z.of_nat (nat_of_ascii c) in
  if (128 <=? n) && (n <? 192) then Some (n - 128) else None.

(** The code points of a UTF-8 text. *)
Fixpoint utf8_decode (s : string) : option (list Z) :=
  match s with
  | EmptyString => Some []
  | String c r =>
      let n := Z.of_nat (nat_of_ascii c) in
      if n <? 128 then option_map (cons n) (utf8_decode r)
      else if (192 <=? n) && (n <? 224) then
        match r with
        | String c1 r1 =>
            match cont_byte c1 with
            | Some x1 => option_map (cons ((n - 192) * 64 + x1)) (utf8_decode r1)
            | None => None
            end
        | EmptyString => None
        end
      else if (224 <=? n) && (n <? 240) then
        match r with
        | String c1 (String c2 r2) =>
            match cont_byte c1, cont_byte c2 with
            | Some x1, Some x2 =>
                option_map (cons (((n - 224) * 64 + x1) * 64 + x2)) (utf8_decode r2)
            | _, _ => None
            end
        | _ => None
        end
      else if (240 <=? n) && (n <? 248) then
        match r with
        | String c1 (String c2 (String c3 r3)) =>
            match cont_byte c1, cont_byte c2, cont_byte c3 with
            | Some x1, Some x2, Some x3 =>
                option_map (cons ((((n - 240) * 64 + x1) * 64 + x2) * 64 + x3))
                  (utf8_decode r3)
            | _, _, _ => None
            end
        | _ => None
        end
      else None
  end.

(** [_PyUnicode_TransformDecimalAndSpaceToASCII]. *)
Fixpoint transform_decimal_and_space (cps : list Z) : string :=
  match cps with
  | [] => EmptyString
  | c :: r =>
      if c <? 127 then String (ascii_of_nat (Z.to_nat c)) (transform_decimal_and_space r)
      else if py_unicode_isspace c then String " " (transform_decimal_and_space r)
      else match py_unicode_todecimal c with
           | Some d => String (ascii_of_nat (Z.to_nat (48 + d)))
                         (transform_decimal_and_space r)
           | None => String "?" EmptyString
           end
  end.

(** [Py_ISSPACE]: the C whitespace of the ASCII table. *)
Definition c_isspace (c : ascii) : bool :=
  let n := nat_of_ascii c in (Nat.leb 9 n && Nat.leb n 13) || Nat.eqb n 32.

Fixpoint skip_space (s : string) : string :=
  match s with
  | String c r => if c_isspace c then skip_space r else s
  | EmptyString => s
  end.

Definition digit_value (c : ascii) : option Z :=
  let n := nat_of_ascii c in
  if Nat.leb 48 n && Nat.leb n 57 then Some (Z.of_nat n - 48) else None.

(** The digit scan of [PyLong_FromString]: digits and single underscores
    between them. Returns the value, the number of digits and what
    follows, or [None] on a doubled or trailing underscore; [prev] is the
    character read last. *)
Fixpoint scan_digits (s : string) (acc digits : Z) (prev : ascii)
  : option (Z * Z * string) :=
  match s with
  | String c r =>
      if Ascii.eqb c "_" then
        if Ascii.eqb prev "_" then None else scan_digits r acc digits c
      else match digit_value c with
           | Some v => scan_digits r (acc * 10 + v) (digits + 1) c
           | None => if Ascii.eqb prev "_" then None else Some (acc, digits, s)
           end
  | EmptyString => if Ascii.eqb prev "_" then None else Some (acc, digits, EmptyString)
  end.

(** [sys.get_int_max_str_digits()] by default. *)
Definition int_max_str_digits : Z := 4300.

(** [PyLong_FromString(s, &end, 10)], with the check that [end] is the end
    of [s]. *)
Definition long_from_string (s : string) : outcome Z :=
  let s := skip_space s in
  let '(sign, s) := match s with
                    | String "-" r => (-1, r)
                    | String "+" r => (1, r)
                    | _ => (1, s)
                    end in
  match s with
  | String "_" _ => Raise ValueError
  | _ =>
      match scan_digits s 0 0 (ascii_of_nat 0) with
      | None => Raise ValueError
      | Some (v, digits, rest) =>
          if digits >? int_max_str_digits then Raise ValueError
          else if digits =? 0 then Raise ValueError
          else match skip_space rest with
               | EmptyString => Ret (sign * v)
               | _ => Raise ValueError
               end
      end
  end.

(** [int(s)]. *)
Definition py_int (s : string) : outcome Z :=
  match utf8_decode s with
  | Some cps => long_from_string (transform_decimal_and_space cps)
  | None => Raise ValueError
  end.

(** ** URLs

    [urljoin(base, url)] as the modules call it: [url] is always an
    absolute path (a '/' followed by something other than '/'), so it
    takes its scheme from [base] and has no network location of its own.
    [urlsplit] raises [ValueError] on a network location with unbalanced
    brackets, or on a non-ASCII one that NFKC normalisation turns into one
    holding '/?#@:'; the model leaves out these two cases. *)

Definition in_list (s : string) (l : list string) : bool := existsb (String.eqb s) l.

Definition is_url_delim (c : ascii) : bool :=
  Ascii.eqb c "/" || Ascii.eqb c "?" || Ascii.eqb c "#".

Fixpoint netloc (s : string) : string :=
  match s with
  | EmptyString => EmptyString
  | String c r => if is_url_delim c then EmptyString else String c (netloc r)
  end.

Definition is_alpha (c : ascii) : bool :=
  let n := nat_of_ascii c in
  (Nat.leb 65 n && Nat.leb n 90) || (Nat.leb 97 n && Nat.leb n 122).

Definition is_digit (c : ascii) : bool :=
  let n := nat_of_ascii c in Nat.leb 48 n && Nat.leb n 57.

(** [scheme_chars]. *)
Definition scheme_char (c : ascii) : bool :=
  is_alpha c || is_digit c || Ascii.eqb c "+" || Ascii.eqb c "-" || Ascii.eqb c ".".

Fixpoint str_forallb (f : ascii -> bool) (s : string) : bool :=
  match s with
  | EmptyString => true
  | String c r => f c && str_forallb f r
  end.

Fixpoint str_map (f : ascii -> ascii) (s : string) : string :=
  match s with
  | EmptyString => EmptyString
  | String c r => String (f c) (str_map f r)
  end.

Definition lower_ascii (c : ascii) : ascii :=
  let n := nat_of_ascii c in
  if Nat.leb 65 n && Nat.leb n 90 then ascii_of_nat (n + 32) else c.

(** [s.split(d, 1)]: the text before the first [d], and the text after it
    if there is a [d]. *)
Fixpoint split_first (d : ascii) (s : string) : string * option string :=
  match s with
  | EmptyString => (EmptyString, None)
  | String c r =>
      if Ascii.eqb c d then (EmptyString, Some r)
      else let (a, b) := split_first d r in (String c a, b)
  end.

Definition opt_str (o : option string) : string :=
  match o with Some x => x | None => EmptyString end.

(** [s.split(d)]. *)
Fixpoint split_on (d : ascii) (s : string) : list string :=
  match s with
  | EmptyString => [EmptyString]
  | String c r =>
      let l := split_on d r in
      if Ascii.eqb c d then EmptyString :: l
      else match l with
           | x :: l' => String c x :: l'
           | [] => [String c EmptyString]
           end
  end.

(** [url.lstrip(_WHATWG_C0_CONTROL_OR_SPACE)]. *)
Fixpoint lstrip_c0 (s : string) : string :=
  match s with
  | String c r => if Nat.leb (nat_of_ascii c) 32 then lstrip_c0 r else s
  | EmptyString => s
  end.

(** Removal of [_UNSAFE_URL_BYTES_TO_REMOVE] (tab, CR, LF). *)
Fixpoint remove_unsafe (s : string) : string :=
  match s with
  | EmptyString => EmptyString
  | String c r =>
      let n := nat_of_ascii c in
      if Nat.eqb n 9 || Nat.eqb n 13 || Nat.eqb n 10 then remove_unsafe r
      else String c (remove_unsafe r)
  end.

(** The network location after the scheme, when [rest] starts with "//". *)
Definition netloc_of (rest : string) : string :=
  match rest with
  | String "/" (String "/" r) => netloc r
  | _ => EmptyString
  end.

(** [_splitparams(url)]. *)
Definition splitparams (u : string) : string * string :=
  match split_first "/" u with
  | (_, Some _) =>
      let segs := split_on "/" u in
      match split_first ";" (last segs EmptyString) with
      | (a, Some b) => (str_join "/" (removelast segs ++ [a]), b)
      | (_, None) => (u, EmptyString)
      end
  | (_, None) =>
      match split_first ";" u with
      | (a, Some b) => (a, b)
      | (_, None) => (u, EmptyString)
      end
  end.

(** [urlunsplit((scheme, netloc, url, query, fragment))], given the
    version's [uses_netloc]. *)
Definition urlunsplit (netloc_schemes : list string)
    (scheme nl url query fragment : string) : string :=
  let url :=
    if negb (String.eqb nl "")
       || (negb (String.eqb scheme "") && in_list scheme netloc_schemes
           && negb (String.prefix "//" url))
    then "//" ++ nl ++ (match url with
                        | EmptyString => url
                        | String "/" _ => url
                        | _ => "/" ++ url
                        end)
    else url in
  let url := if String.eqb scheme "" then url else scheme ++ ":" ++ url in
  let url := if String.eqb query "" then url else url ++ "?" ++ query in
  if String.eqb fragment "" then url else url ++ "#" ++ fragment.

(** The characters of [str(n)] for an integer [n]. *)
Definition num_char (c : ascii) : bool := is_digit c || Ascii.eqb c "-".

(** *** Python 3.11 ([urllib.parse]) *)

Definition uses_relative : list string :=
  [""; "ftp"; "http"; "gopher"; "nntp"; "imap"; "wais"; "file"; "https";
   "shttp"; "mms"; "prospero"; "rtsp"; "rtspu"; "sftp"; "svn"; "svn+ssh";
   "ws"; "wss"].

Definition uses_netloc : list string :=
  [""; "ftp"; "http"; "gopher"; "nntp"; "telnet"; "imap"; "wais"; "file";
   "mms"; "https"; "shttp"; "snews"; "prospero"; "rtsp"; "rtspu"; "rsync";
   "svn"; "svn+ssh"; "sftp"; "nfs"; "git"; "git+ssh"; "ws"; "wss"].

Definition uses_params : list string :=
  [""; "ftp"; "hdl"; "prospero"; "http"; "imap"; "https"; "shttp"; "rtsp";
   "rtspu"; "sip"; "sips"; "mms"; "sftp"; "tel"].

(** The scheme (lower-cased) and the rest of a URL, as [urlsplit] finds
    them. *)
Definition split_scheme (s : string) : string * string :=
  match split_first ":" s with
  | (String c r as a, Some rest) =>
      if is_alpha c && str_forallb scheme_char a then (str_map lower_ascii a, rest)
      else (EmptyString, s)
  | _ => (EmptyString, s)
  end.

(** Scheme and network location of [urlparse(base)]. *)
Definition split_base (base : string) : string * string :=
  let b := remove_unsafe (lstrip_c0 base) in
  let (scheme, rest) := split_scheme b in (scheme, netloc_of rest).

(** The loop of [urljoin] over the segments of an absolute path: [..]
    drops the last kept segment (if any), [.] is skipped; [acc] holds the
    kept segments in reverse. *)
Fixpoint resolve_aux (acc segs : list string) : list string :=
  match segs with
  | [] => acc
  | s :: r =>
      if String.eqb s ".." then resolve_aux (tl acc) r
      else if String.eqb s "." then resolve_aux acc r
      else resolve_aux (s :: acc) r
  end.

(** [resolved_path], with the trailing [''] added after a last segment
    [.] or [..]. *)
Definition resolve_dots (segs : list string) : list string :=
  let res := rev (resolve_aux [] segs) in
  let l := last segs EmptyString in
  if String.eqb l "." || String.eqb l ".." then res ++ [EmptyString] else res.

Definition urljoin (base url : string) : string :=
  if String.eqb base "" then url
  else if String.eqb url "" then base
  else
    let (scheme, bnetloc) := split_base base in
    if negb (in_list scheme uses_relative) then url
    else
      let nl := if in_list scheme uses_netloc then bnetloc else EmptyString in
      let u := remove_unsafe (lstrip_c0 url) in
      let (u, fragment) := split_first "#" u in
      let (u, query) := split_first "?" u in
      let (path, params) :=
        if in_list scheme uses_params then splitparams u else (u, EmptyString) in
      let p := match str_join "/" (resolve_dots (split_on "/" path)) with
               | EmptyString => "/"
               | p => p
               end in
      urlunsplit uses_netloc scheme nl
        (if String.eqb params "" then p else p ++ ";" ++ params)
        (opt_str query) (opt_str fragment).

(** *** Python 2.7 ([urlparse]), for [mr_provisioner_get_ip.py] *)

Definition uses_relative_py2 : list string :=
  ["ftp"; "http"; "gopher"; "nntp"; "imap"; "wais"; "file"; "https";
   "shttp"; "mms"; "prospero"; "rtsp"; "rtspu"; ""; "sftp"; "svn"; "svn+ssh"].

Definition uses_netloc_py2 : list string :=
  ["ftp"; "http"; "gopher"; "nntp"; "telnet"; "imap"; "wais"; "file"; "mms";
   "https"; "shttp"; "snews"; "prospero"; "rtsp"; "rtspu"; "rsync"; "";
   "svn"; "svn+ssh"; "sftp"; "nfs"; "git"; "git+ssh"].

Definition uses_params_py2 : list string :=
  ["ftp"; "hdl"; "prospero"; "http"; "imap"; "https"; "shttp"; "rtsp";
   "rtspu"; "sip"; "sips"; "mms"; ""; "sftp"; "tel"].

(** Python 2's scheme rule: "http" at once; otherwise scheme characters
    before the first ':', unless what follows is a non-empty run of
    digits, taken for a port number. *)
Definition split_scheme_py2 (s : string) : string * string :=
  match split_first ":" s with
  | (a, Some rest) =>
      if String.eqb a "http" then (a, rest)
      else if negb (String.eqb a "") && str_forallb scheme_char a
              && (String.eqb rest "" || negb (str_forallb is_digit rest))
      then (str_map lower_ascii a, rest)
      else (EmptyString, s)
  | (_, None) => (EmptyString, s)
  end.

Definition split_base_py2 (base : string) : string * string :=
  let (scheme, rest) := split_scheme_py2 base in (scheme, netloc_of rest).

(** Python 2's [urljoin] keeps an absolute path as it is: no dot
    segments are resolved. *)
Definition urljoin_py2 (base url : string) : string :=
  if String.eqb base "" then url
  else if String.eqb url "" then base
  else
    let (scheme, bnetloc) := split_base_py2 base in
    if negb (in_list scheme uses_relative_py2) then url
    else
      let nl := if in_list scheme uses_netloc_py2 then bnetloc else EmptyString in
      let (u, fragment) := split_first "#" url in
      let (u, query) := split_first "?" u in
      let (path, params) :=
        if in_list scheme uses_params_py2 then splitparams u else (u, EmptyString) in
      urlunsplit uses_netloc_py2 scheme nl
        (if String.eqb params "" then path else path ++ ";" ++ params)
        (opt_str query) (opt_str fragment).

Definition hex_digit (n : nat) : ascii :=
  match n with
  | 0%nat => "0" | 1%nat => "1" | 2%nat => "2" | 3%nat => "3"
  | 4%nat => "4" | 5%nat => "5" | 6%nat => "6" | 7%nat => "7"
  | 8%nat => "8" | 9%nat => "9" | 10%nat => "A" | 11%nat => "B"
  | 12%nat => "C" | 13%nat => "D" | 14%nat => "E" | _ => "F"
  end.

Definition quote_safe (c : ascii) : bool :=
  let n := nat_of_ascii c in
  (Nat.leb 48 n && Nat.leb n 57) || (Nat.leb 65 n && Nat.leb n 90)
  || (Nat.leb 97 n && Nat.leb n 122)
  || Ascii.eqb c "_" || Ascii.eqb c "." || Ascii.eqb c "-" || Ascii.eqb c "~"
  || Ascii.eqb c "/".

(** [quote(s)] (Python 3, [safe='/']): every byte outside the unreserved
    characters and ['/'] becomes [%XX]. *)
Fixpoint quote (s : string) : string :=
  match s with
  | EmptyString => EmptyString
  | String c r =>
      if quote_safe c then String c (quote r)
      else let n := nat_of_ascii c in
           String "%" (String (hex_digit (Nat.div n 16))
                         (String (hex_digit (Nat.modulo n 16)) (quote r)))
  end.

(** ** HTTP *)

(** [json.dumps(v)] (separators [", "] and [": "], strings without
    escaping). *)
Fixpoint json_dumps (v : json) : string :=
  match v with
  | JNull => "null"
  | JBool true => "true"
  | JBool false => "false"
  | JInt z => str_of_Z z
  | JStr s => dq ++ s ++ dq
  | JList l => "[" ++ str_join ", " (map json_dumps l) ++ "]"
  | JObj kvs =>
      "{" ++ str_join ", "
        (map (fun kv => dq ++ fst kv ++ dq ++ ": " ++ json_dumps (snd kv)) kvs)
      ++ "}"
  end.

(** A request: the [Authorization] header value, the URL and, for PUT and
    POST, the JSON document sent as [data=json.dumps(...)]. *)
Inductive request : Type :=
| Get (token url : string)
| Put (token url : string) (data : json)
| Post (token url : string) (data : json).

(** A [requests.Response]: status, reason phrase and the decoded body
    [r.json()]; the service sends the JSON encoding of the body. *)
Record response : Type := mkResponse {
  status_code : Z;
  reason : string;
  body : json
}.

Definition content (r : response) : string := json_dumps (body r).

Fixpoint chunks_aux (fuel : nat) (s : string) : list string :=
  match fuel with
  | O => []
  | S f =>
      match s with
      | EmptyString => []
      | _ => substring 0 128 s :: chunks_aux f (substring 128 (String.length s - 128) s)
      end
  end.

(** [r.iter_content(128)]: the body bytes in chunks of 128. *)
Definition iter_content (s : string) : list string :=
  chunks_aux (String.length s) s.

(** What a [for] loop yields: a decoded value, or a chunk of bytes. *)
Inductive item : Type :=
| IJson (v : json)
| IBytes (b : string).

(** [for i in r] on a [requests.Response]: [Response.__iter__] is
    [iter_content(128)], so the loop sees raw byte chunks. *)
Definition iter_response (r : response) : list item :=
  map IBytes (iter_content (content r)).

(** [i[k]] on a loop item: indexing bytes with a string raises. *)
Definition item_getitem (i : item) (k : string) : outcome json :=
  match i with
  | IJson v => getitem v k
  | IBytes _ => Raise TypeError
  end.

(** ** The world and the module monad *)

(** What the modules observe or change, each stamped with the clock. *)
Inductive event : Type :=
| EvReq (t : Z) (rq : request)
| EvSleep (t : Z) (secs : Z)
| EvPrint (t : Z) (s : string).

(** The remote service in state [srv], the clock in seconds, the local
    files, and the log of what happened so far. *)
Record world (S : Type) : Type := mkWorld {
  srv : S;
  clock : Z;
  files : list (string * string);
  log : list event
}.
Arguments mkWorld {S} srv clock files log.
Arguments srv {S} w.
Arguments clock {S} w.
Arguments files {S} w.
Arguments log {S} w.

Definition M (S A : Type) : Type := world S -> outcome A * world S.

Definition ret {S A} (a : A) : M S A := fun w => (Ret a, w).
Definition raise {S A} (e : exn) : M S A := fun w => (Raise e, w).
Definition bind {S A B} (m : M S A) (k : A -> M S B) : M S B :=
  fun w => match m w with
           | (Ret a, w') => k a w'
           | (Raise e, w') => (Raise e, w')
           end.

Notation "x <- m ;; k" := (bind m (fun x => k))
  (at level 61, m at next level, right associativity).
Notation "m ;;; k" := (bind m (fun _ => k))
  (at level 61, right associativity).

(** [try: m except ProvisionerError as e: ...]: only [ProvisionerError] is
    caught. *)
Definition try_prov {S A} (m : M S A) : M S (msg + A) :=
  fun w => match m w with
           | (Ret a, w') => (Ret (inr a), w')
           | (Raise (ProvisionerError e), w') => (Ret (inl e), w')
           | (Raise e, w') => (Raise e, w')
           end.

Definition lift {S A} (o : outcome A) : M S A :=
  fun w => (o, w).

Definition log_event {S} (ev : event) (w : world S) : world S :=
  mkWorld (srv w) (clock w) (files w) (log w ++ [ev]).

Definition print {S} (s : string) : M S unit :=
  fun w => (Ret tt, log_event (EvPrint (clock w) s) w).

(** [time.sleep(n)] for an [int] [n] (Python 3.11): [n] is first
    converted to a signed 64-bit count of nanoseconds, which raises
    [OverflowError] when [n * 10^9] does not fit; then a negative length
    raises [ValueError]. *)
Definition sleep {S} (n : Z) : M S unit :=
  fun w => if (n * 1000000000 >? 9223372036854775807)
              || (n * 1000000000 <? -9223372036854775808) then (Raise OverflowError, w)
           else if n <? 0 then (Raise ValueError, w)
           else (Ret tt, mkWorld (srv w) (clock w + n) (files w)
                                 (log w ++ [EvSleep (clock w) n])).

Fixpoint lookup_file (p : string) (fs : list (string * string)) : option string :=
  match fs with
  | [] => None
  | (p', c) :: r => if String.eqb p' p then Some c else lookup_file p r
  end.

(** [open(path, 'r')] followed by reading every line. *)
Definition read_file {S} (p : string) : M S string :=
  fun w => match lookup_file p (files w) with
           | Some c => (Ret c, w)
           | None => (Raise FileNotFoundError, w)
           end.

Section Http.
Context {S : Type}.
(** The remote service: how it answers a request in a given state. *)
Variable handle : S -> request -> S * response.

Definition send (rq : request) : M S response :=
  fun w => let (s', r) := handle (srv w) rq in
           (Ret r, mkWorld s' (clock w) (files w) (log w ++ [EvReq (clock w) rq])).
End Http.

(** The world after [send rq], answered with the service in state [s']. *)
Definition after_request {S} (w : world S) (s' : S) (rq : request) : world S :=
  mkWorld s' (clock w) (files w) (log w ++ [EvReq (clock w) rq]).

(** The requests of a log, in order. *)
Fixpoint requests_of (l : list event) : list request :=
  match l with
  | [] => []
  | EvReq _ rq :: r => rq :: requests_of r
  | _ :: r => requests_of r
  end.

Definition is_mutation (rq : request) : bool :=
  match rq with
  | Get _ _ => false
  | _ => true
  end.

Definition obind {A B} (o : outcome A) (k : A -> outcome B) : outcome B :=
  match o with
  | Ret a => k a
  | Raise e => Raise e
  end.

Notation "x <-? o ;; k" := (obind o (fun x => k))
  (at level 61, o at next level, right associativity).

(** The machine search both modules send:
    [urljoin(url, "/api/v1/machine?q={}&show_all=false".format(q))] with
    [q = '(= name "{}")'.format(quote(name))]. *)
Definition machine_query_url (base name : string) : string :=
  let q := "(= name " ++ dq ++ quote name ++ dq ++ ")" in
  urljoin base ("/api/v1/machine?q=" ++ q ++ "&show_all=false").

(** ** [mr_provisioner_get_ip.py] *)
Module IPGetter.

(** The attributes of an [IPGetter] object. *)
Record t : Type := mk {
  mrp_url : string;
  mrp_token : string;
  machine_name : string;
  interface : string;
  machine_id : json
}.

(** The loop of [get_ip] over the items it iterates. *)
Fixpoint select_ip (iface : string) (items : list item) : outcome json :=
  match items with
  | [] => Ret JNull
  | i :: rest =>
      ident <-? item_getitem i "identifier" ;;
      if eq_str ident iface then
        ct <-? item_getitem i "config_type_v4" ;;
        if eq_str ct "dynamic-reserved" then
          c <-? item_getitem i "configured_ipv4" ;;
          if truthy c then item_getitem i "configured_ipv4"
          else item_getitem i "lease_ipv4"
        else item_getitem i "lease_ipv4"
      else select_ip iface rest
  end.

Section Methods.
Context {S : Type}.
Variable handle : S -> request -> S * response.

Definition get_machine_by_name (self : t) : M S json :=
  let url := machine_query_url (mrp_url self) (machine_name self) in
  r <- send handle (Get (mrp_token self) url) ;;
  if negb (status_code r =? 200) then
    raise (ProvisionerError (MsgFetch url (status_code r) (reason r)))
  else
    n <- lift (py_len (body r)) ;;
    if n =? 0 then raise (ProvisionerError (MsgNoAssigned (machine_name self)))
    else if n >? 1 then
      raise (ProvisionerError (MsgMoreThanOne (machine_name self) (body r)))
    else lift (index0 (body r)).

(** Returns the updated object and the [requests.Response] [r] itself. *)
Definition get_interfaces (self : t) : M S (t * response) :=
  res <- get_machine_by_name self ;;
  i <- lift (getitem res "id") ;;
  if truthy i then
    let self := mk (mrp_url self) (mrp_token self) (machine_name self)
                   (interface self) i in
    let url := urljoin_py2 (mrp_url self)
                 ("/api/v1/machine/" ++ py_str (machine_id self) ++ "/interface") in
    r <- send handle (Get (mrp_token self) url) ;;
    if negb (status_code r =? 200) then
      raise (ProvisionerError (MsgFetch (mrp_url self) (status_code r) (reason r)))
    else
      n <- lift (py_len (body r)) ;;
      if n =? 0 then raise (ProvisionerError (MsgNoMachineId (machine_id self)))
      else ret (self, r)
  else raise (ProvisionerError (MsgNoId (machine_name self))).

(** [get_ip]: a caught [ProvisionerError] is printed, then the loop reads
    the never-assigned local [interfaces]. *)
Definition get_ip (self : t) : M S json :=
  x <- try_prov (get_interfaces self) ;;
  match x with
  | inl e =>
      print ("Could not fetch interface for machine : " ++ dq ++ render e ++ dq) ;;;
      raise UnboundLocalError
  | inr (_, interfaces) => lift (select_ip (interface self) (iter_response interfaces))
  end.

(** [IPGetter(mrpurl, mrptoken, machine_name, interface_name)]: the
    constructor computes [self.machine_ip = self.get_ip()]. *)
Definition init (url token name iface : string) : M S json :=
  get_ip (mk url token name iface (JInt (-1))).
End Methods.
End IPGetter.

(** How an Ansible module ends: [exit_json(json=...)] or [fail_json(msg=...)]. *)
Inductive module_result : Type :=
| ModuleExit (j : json)
| ModuleFail (m : json).

(** ** [mr_provisioner_netboot_switch.py] *)
Module NetbootSwitcher.

(** The attributes of a [NetbootSwitcher] object. *)
Record t : Type := mk {
  url : string;
  auth : string;
  machine_json : json
}.

Section Methods.
Context {S : Type}.
Variable handle : S -> request -> S * response.

Definition get_machine_by_name (self_url self_auth machine_name : string) : M S json :=
  let url := machine_query_url self_url machine_name in
  r <- send handle (Get self_auth url) ;;
  if negb (status_code r =? 200) then
    raise (ProvisionerError (MsgFetch url (status_code r) (reason r)))
  else
    n <- lift (py_len (body r)) ;;
    if n =? 0 then raise (ProvisionerError (MsgNoAssigned machine_name))
    else if n >? 1 then
      raise (ProvisionerError (MsgMoreThanOne machine_name (body r)))
    else lift (index0 (body r)).

(** [NetbootSwitcher(mrp_url, mrp_token, machine_name)]. *)
Definition init (mrp_url mrp_token machine_name : string) : M S t :=
  m <- get_machine_by_name mrp_url mrp_token machine_name ;;
  ret (mk mrp_url mrp_token m).

Definition switch_netboot_flag (self : t) : M S (t * json) :=
  i <- lift (getitem (machine_json self) "id") ;;
  let u := urljoin (url self) ("/api/v1/machine/" ++ py_str i) in
  mj <- lift (setitem (machine_json self) "netboot_enabled" (JBool false)) ;;
  let self := mk (url self) (auth self) mj in
  r <- send handle (Put (auth self) u (machine_json self)) ;;
  if negb ((status_code r =? 200) || (status_code r =? 202)) then
    raise (ProvisionerError (MsgPutMachine u (status_code r) (reason r)))
  else ret (self, body r).

(** [do_timeout(timeout_string)]. *)
Definition do_timeout (self : t) (timeout_string : string) : M S unit :=
  timeout_int <- lift (py_int timeout_string) ;;
  sleep timeout_int.

(** The body of [run_module] past the check-mode test: the object is
    built twice (once outside the [try]), then the wait and the PUT. *)
Definition run_module (name mrp_url token timeout : string) : M S module_result :=
  _ <- init mrp_url token name ;;
  x <- try_prov (
         netbooter <- init mrp_url token name ;;
         do_timeout netbooter timeout ;;;
         p <- switch_netboot_flag netbooter ;;
         ret (snd p)) ;;
  match x with
  | inl e => ret (ModuleFail (JStr (render e)))
  | inr res =>
      b <- lift (py_in "error" res) ;;
      if b then (m <- lift (getitem res "error") ;; ret (ModuleFail m))
      else ret (ModuleExit res)
  end.
End Methods.
End NetbootSwitcher.

(** ** [PreseedUploader] *)

(** The attributes of a [PreseedUploader] object; both files declare the
    same constructor. *)
Record uploader : Type := mkUploader {
  u_url : string;
  u_authhead : string;
  u_file : string;
  u_name : string;
  u_type : string;
  u_id : json;
  u_desc : string;
  u_knowngood : bool;
  u_public : bool
}.

Definition set_id (self : uploader) (i : json) : uploader :=
  mkUploader (u_url self) (u_authhead self) (u_file self) (u_name self)
    (u_type self) i (u_desc self) (u_knowngood self) (u_public self).

(** [PreseedUploader(mrp_url, mrp_token, preseed_file, preseed_name,
    preseed_type, preseed_desc, preseed_knowngood, preseed_public)]. *)
Definition new_uploader (url token file name type desc : string) (kg pub : bool)
  : uploader :=
  mkUploader url token file name type (JInt (-1)) desc kg pub.

Definition preseed_list_url (base : string) : string :=
  urljoin base "/api/v1/preseed?show_all=true".

Definition preseed_url (base : string) (id : json) : string :=
  urljoin base ("/api/v1/preseed/" ++ py_str id).

(** The document built by [_get_preseed_from_file] from the file contents. *)
Definition preseed_doc (self : uploader) (contents : string) : json :=
  JObj ([("content", JStr contents); ("name", JStr (u_name self));
         ("type", JStr (u_type self)); ("public", JBool (u_public self));
         ("known_good", JBool (u_knowngood self))]
        ++ (if negb (String.eqb (u_desc self) "")
            then [("description", JStr (u_desc self))] else [])).

Definition error_dict (s : string) : json := JObj [("error", JStr s)].

Section Uploader.
Context {S : Type}.
Variable handle : S -> request -> S * response.

(** The loop of [_check_for_existence]: the first entry whose ['name']
    equals [self.name] gives [self.id]. *)
Fixpoint scan_preseeds (self : uploader) (l : list json) : outcome (uploader * bool) :=
  match l with
  | [] => Ret (self, false)
  | p :: rest =>
      n <-? getitem p "name" ;;
      if eq_str n (u_name self) then
        i <-? getitem p "id" ;; Ret (set_id self i, true)
      else scan_preseeds self rest
  end.

(** [_check_for_existence] (the same in both files). *)
Definition check_for_existence (self : uploader) : M S (uploader * bool) :=
  let url := preseed_list_url (u_url self) in
  r <- send handle (Get (u_authhead self) url) ;;
  if negb (status_code r =? 200) then
    raise (ProvisionerError (MsgFetch url (status_code r) (reason r)))
  else
    l <- lift (py_iter (body r)) ;;
    lift (scan_preseeds self l).

(** [_get_preseed_from_file] (the same in both files). *)
Definition get_preseed_from_file (self : uploader) : M S json :=
  contents <- read_file (u_file self) ;;
  ret (preseed_doc self contents).
End Uploader.

(** [mr_provisioner_preseed.py] *)
Module MrpPreseed.
Section Methods.
Context {S : Type}.
Variable handle : S -> request -> S * response.

Definition modify_preseed (self : uploader) : M S json :=
  if negb (ne_minus1 (u_id self)) then raise (ProvisionerError MsgIdUndefined)
  else
    let url := preseed_url (u_url self) (u_id self) in
    preseed <- get_preseed_from_file self ;;
    r <- send handle (Put (u_authhead self) url preseed) ;;
    if negb (status_code r =? 200) then
      raise (ProvisionerError
               (MsgPutPreseedWrapped (u_name self) (u_id self) (status_code r) (reason r)))
    else ret (body r).

Definition upload_preseed (self : uploader) : M S json :=
  x <- try_prov (check_for_existence handle self) ;;
  match x with
  | inl e => ret (error_dict (render e))
  | inr (self, exists_) =>
      if negb exists_ && String.eqb (u_file self) "/dev/null" then
        ret (error_dict "Preseed does not exist and file not given")
      else if ne_minus1 (u_id self) && negb (String.eqb (u_file self) "/dev/null") then
        y <- try_prov (modify_preseed self) ;;
        match y with
        | inl e => ret (error_dict (render e))
        | inr res => ret res
        end
      else if negb (String.eqb (u_file self) "/dev/null") then
        preseed <- get_preseed_from_file self ;;
        let url := urljoin (u_url self) "/api/v1/preseed" in
        r <- send handle (Post (u_authhead self) url preseed) ;;
        if negb (status_code r =? 201) then
          raise (ProvisionerError (MsgPostPreseedWrapped (u_name self) (status_code r) (reason r)))
        else ret (body r)
      else ret (JObj [])
  end.

(** [run_module] past the check-mode test. *)
Definition run_module (self : uploader) : M S module_result :=
  x <- try_prov (upload_preseed self) ;;
  match x with
  | inl e => ret (ModuleFail (JStr (render e)))
  | inr res =>
      b <- lift (py_in "error" res) ;;
      if b then (m <- lift (getitem res "error") ;; ret (ModuleFail m))
      else ret (ModuleExit res)
  end.
End Methods.
End MrpPreseed.

(** [preseed_upload_module.py] *)
Module PreseedUploadModule.
Section Methods.
Context {S : Type}.
Variable handle : S -> request -> S * response.

Definition modify_preseed (self : uploader) : M S unit :=
  if negb (ne_minus1 (u_id self)) then raise (ProvisionerError MsgIdUndefined)
  else
    let url := preseed_url (u_url self) (u_id self) in
    preseed <- get_preseed_from_file self ;;
    r <- send handle (Put (u_authhead self) url preseed) ;;
    if negb (status_code r =? 200) then
      raise (ProvisionerError
               (MsgPutPreseed (u_name self) (u_id self) (status_code r) (reason r)))
    else ret tt.

(** A failed existence check is printed and the upload goes on. *)
Definition upload_preseed (self : uploader) : M S unit :=
  x <- try_prov (check_for_existence handle self) ;;
  self <- (match x with
           | inl err => print (render err) ;;; ret self
           | inr (self', _) => ret self'
           end) ;;
  if ne_minus1 (u_id self) then modify_preseed self
  else
    preseed <- get_preseed_from_file self ;;
    let url := urljoin (u_url self) "/api/v1/preseed" in
    r <- send handle (Post (u_authhead self) url preseed) ;;
    if negb (status_code r =? 201) then
      raise (ProvisionerError (MsgPostPreseed (u_name self) (status_code r) (reason r)))
    else ret tt.

(** [run_module] past the check-mode test: [fail_json] on a
    [ProvisionerError], otherwise [exit_json] with [{'status': 'ok'}]. *)
Definition run_module (self : uploader) : M S module_result :=
  x <- try_prov (upload_preseed self) ;;
  match x with
  | inl e => ret (ModuleFail (JStr (render e)))
  | inr _ => ret (ModuleExit (JObj [("status", JStr "ok")]))
  end.
End Methods.
End PreseedUploadModule.

(** ** Sample inputs *)

Definition base_url : string := "http://192.168.0.3:5000/".
Definition token : string := "secret".

Definition node1 : json :=
  JObj [("id", JInt 7); ("name", JStr "node1"); ("netboot_enabled", JBool true)].

(** A service that answers every request with the same response. *)
Definition const_service (r : response) : unit -> request -> unit * response :=
  fun _ _ => (tt, r).

Definition world0 : world unit := mkWorld tt 0 [] [].

Example machine_query_url_node1 :
  machine_query_url base_url "node 1"
  = "http://192.168.0.3:5000/api/v1/machine?q=(= name " ++ dq ++ "node%201" ++ dq
    ++ ")&show_all=false".
Proof. reflexivity. Qed.

Example get_machine_one :
  fst (NetbootSwitcher.get_machine_by_name
         (const_service (mkResponse 200 "OK" (JList [node1]))) base_url token "node1" world0)
  = Ret node1.
Proof. reflexivity. Qed.

(** ** Name resolution *)

(** What the name search must give for a result set [l]: the single
    machine, NotFound on an empty set, AmbiguousResource on two or more. *)
Definition resolution_spec (name : string) (l : list json) (o : outcome json) : Prop :=
  match l with
  | [] => o = Raise (ProvisionerError (MsgNoAssigned name))
  | [m] => o = Ret m
  | _ :: _ :: _ => o = Raise (ProvisionerError (MsgMoreThanOne name (JList l)))
  end.

Lemma lookup_result_spec (name : string) (l : list json) :
  resolution_spec name l
    (n <-? py_len (JList l) ;;
     if n =? 0 then Raise (ProvisionerError (MsgNoAssigned name))
     else if n >? 1 then Raise (ProvisionerError (MsgMoreThanOne name (JList l)))
     else index0 (JList l)).
Proof.
  destruct l as [|m [|m2 l']]; simpl; try reflexivity.
  set (n := Z.pos _).
  assert (Hn : n > 1) by (subst n; lia).
  destruct (n =? 0) eqn:E0; [lia|].
  destruct (n >? 1) eqn:E1; [reflexivity|lia].
Qed.

Lemma lookup_result_lift {S} (v : json) (a b : msg) (w : world S) :
  fst ((n <- lift (py_len v) ;;
        if n =? 0 then raise (ProvisionerError a)
        else if n >? 1 then raise (ProvisionerError b)
        else lift (index0 v)) w)
  = (n <-? py_len v ;;
     if n =? 0 then Raise (ProvisionerError a)
     else if n >? 1 then Raise (ProvisionerError b)
     else index0 v).
Proof.
  unfold bind, lift; destruct (py_len v) as [n|e]; simpl; [|reflexivity].
  destruct (n =? 0); [reflexivity|]. destruct (n >? 1); reflexivity.
Qed.

(** C1: both embedded resolvers, [IPGetter.get_machine_by_name] and
    [NetbootSwitcher.get_machine_by_name], return the single machine of a
    one-element result set, fail with the "no assigned machine" error
    (NotFound) on an empty one, and with the "more than one machine" error
    (AmbiguousResource) on a result set of two or more. *)
Theorem resolve_trichotomy {S} (handle : S -> request -> S * response)
    (w : world S) (s' : S) (url tok name iface rs : string) (mid : json)
    (l : list json)
    (Hsearch : handle (srv w) (Get tok (machine_query_url url name))
               = (s', mkResponse 200 rs (JList l))) :
  resolution_spec name l
    (fst (IPGetter.get_machine_by_name handle (IPGetter.mk url tok name iface mid) w))
  /\ resolution_spec name l
       (fst (NetbootSwitcher.get_machine_by_name handle url tok name w)).
Proof.
  unfold IPGetter.get_machine_by_name, NetbootSwitcher.get_machine_by_name.
  cbn [IPGetter.mrp_url IPGetter.mrp_token IPGetter.machine_name].
  unfold bind at 1 3, send; rewrite Hsearch; cbn [status_code body Z.eqb negb].
  cbn [Pos.eqb negb]; split; rewrite lookup_result_lift; apply lookup_result_spec.
Qed.

Lemma resolve_trichotomy_witness :
  let l := [node1] in
  let h := const_service (mkResponse 200 "OK" (JList l)) in
  h (srv world0) (Get token (machine_query_url base_url "node1"))
    = (tt, mkResponse 200 "OK" (JList l))
  /\ resolution_spec "node1" l
       (fst (IPGetter.get_machine_by_name h
               (IPGetter.mk base_url token "node1" "eth1" (JInt (-1))) world0))
  /\ resolution_spec "node1" l
       (fst (NetbootSwitcher.get_machine_by_name h base_url token "node1" world0)).
Proof.
  intros l h. split; [reflexivity|].
  apply (resolve_trichotomy h world0 tt base_url token "node1" "eth1" "OK" (JInt (-1)) l).
  reflexivity.
Defined.

(** ** Interface selection *)

(** A service with fixed answers to GET requests, 404 elsewhere. *)
Fixpoint route (routes : list (string * response)) (u : string) : response :=
  match routes with
  | [] => mkResponse 404 "NOT FOUND" (JObj [])
  | (u', r) :: rest => if String.eqb u' u then r else route rest u
  end.

Definition table_service (routes : list (string * response))
  : unit -> request -> unit * response :=
  fun _ rq => match rq with
              | Get _ u => (tt, route routes u)
              | _ => (tt, mkResponse 404 "NOT FOUND" (JObj []))
              end.

Definition iface (ident ctype configured lease : string) : json :=
  JObj [("identifier", JStr ident); ("config_type_v4", JStr ctype);
        ("configured_ipv4", JStr configured); ("lease_ipv4", JStr lease)].

(** Node 7 answers the search for "node1" and lists [ifaces]. *)
Definition node1_service (ifaces : list json) : unit -> request -> unit * response :=
  table_service
    [(machine_query_url base_url "node1", mkResponse 200 "OK" (JList [node1]));
     (urljoin base_url "/api/v1/machine/7/interface",
      mkResponse 200 "OK" (JList ifaces))].

Example get_interfaces_node1 :
  fst (IPGetter.get_interfaces (node1_service [iface "eth1" "static" "" "10.0.0.9"])
         (IPGetter.mk base_url token "node1" "eth1" (JInt (-1))) world0)
  = Ret (IPGetter.mk base_url token "node1" "eth1" (JInt 7),
         mkResponse 200 "OK" (JList [iface "eth1" "static" "" "10.0.0.9"])).
Proof. reflexivity. Qed.

(** The selection rule of the loop body, on decoded interface entries:
    ["configured_ipv4"] for a matching "dynamic-reserved" entry with a
    non-empty configured address, ["lease_ipv4"] for any other matching
    entry. *)
Lemma select_ip_policy (name : string) (pre : list json)
    (ident ctype configured lease : string) (post : list item) :
  Forall (fun p => exists n, getitem p "identifier" = Ret (JStr n) /\ n <> name) pre ->
  ident = name ->
  IPGetter.select_ip name (map IJson pre ++ IJson (iface ident ctype configured lease) :: post)
  = Ret (JStr (if String.eqb ctype "dynamic-reserved" && negb (String.eqb configured "")
               then configured else lease)).
Proof.
  intros Hpre ->. induction Hpre as [|p pre [n [Hn Hne]] _ IH]; simpl.
  - rewrite String.eqb_refl. simpl.
    destruct (String.eqb ctype "dynamic-reserved"); simpl; [|reflexivity].
    destruct (String.eqb configured ""); reflexivity.
  - rewrite Hn; simpl. apply String.eqb_neq in Hne. rewrite Hne. exact IH.
Qed.

Lemma str_of_Z_nonempty (z : Z) : str_of_Z z <> EmptyString.
Proof.
  unfold str_of_Z, NilZero.string_of_int.
  destruct (Z.to_int z) as [d|d]; [destruct d|]; simpl; discriminate.
Qed.

Lemma json_dumps_nonempty (v : json) : json_dumps v <> EmptyString.
Proof.
  destruct v as [|[]| z | s | l | kvs]; simpl; try discriminate.
  apply str_of_Z_nonempty.
Qed.

Lemma iter_response_bytes (r : response) :
  exists b rest, iter_response r = IBytes b :: rest.
Proof.
  unfold iter_response, iter_content.
  pose proof (json_dumps_nonempty (body r)) as Hne. unfold content.
  destruct (json_dumps (body r)) as [|c s] eqn:E; [contradiction|].
  simpl. eauto.
Qed.

(** Once [get_interfaces] succeeds, the loop of [get_ip] runs over the
    response object, whose first item is a chunk of bytes: indexing it
    with ['identifier'] raises [TypeError]. *)
Lemma get_ip_success_raises {S} (handle : S -> request -> S * response)
    (self self' : IPGetter.t) (r : response) (w w' : world S) :
  IPGetter.get_interfaces handle self w = (Ret (self', r), w') ->
  IPGetter.get_ip handle self w = (Raise TypeError, w').
Proof.
  intros H. unfold IPGetter.get_ip, bind, try_prov. rewrite H.
  unfold lift. destruct (iter_response_bytes r) as [b [rest ->]]. reflexivity.
Qed.

(** C2 (code defect): for machine node1 whose interface eth1 is
    "dynamic-reserved" with configured address 10.0.0.5 and lease
    10.0.0.9, the selection rule applied to the decoded interface list gives
    10.0.0.5, but [IPGetter] (whose constructor calls [get_ip]) raises
    [TypeError]: [get_interfaces] returns the response object [r], not
    [r.json()], and iterating it yields byte chunks. *)
Theorem get_ip_reserved_interface_type_error :
  let ifaces := [iface "eth1" "dynamic-reserved" "10.0.0.5" "10.0.0.9"] in
  IPGetter.select_ip "eth1" (map IJson ifaces) = Ret (JStr "10.0.0.5")
  /\ fst (IPGetter.init (node1_service ifaces) base_url token "node1" "eth1" world0)
     = Raise TypeError.
Proof. split; reflexivity. Qed.

(** C8 (code defect): when no interface of node1 is named eth1, the loop
    over the decoded list would fall through to [None], but [IPGetter]
    raises [TypeError] (same cause as C2: the loop runs over the response
    object). *)
Theorem get_ip_unmatched_interface_type_error :
  let ifaces := [iface "eth0" "static" "" "10.0.0.9"] in
  IPGetter.select_ip "eth1" (map IJson ifaces) = Ret JNull
  /\ fst (IPGetter.init (node1_service ifaces) base_url token "node1" "eth1" world0)
     = Raise TypeError.
Proof. split; reflexivity. Qed.

(** C10: when [get_interfaces] raises a [ProvisionerError], [get_ip]
    catches it, prints it, and then raises [UnboundLocalError] (a
    [NameError]) on the never-assigned [interfaces]: neither a value nor
    the typed error comes out. *)
Theorem get_ip_caught_error_name_error {S} (handle : S -> request -> S * response)
    (self : IPGetter.t) (w w' : world S) (e : msg)
    (Hfail : IPGetter.get_interfaces handle self w = (Raise (ProvisionerError e), w')) :
  IPGetter.get_ip handle self w
  = (Raise UnboundLocalError,
     log_event (EvPrint (clock w')
                  ("Could not fetch interface for machine : " ++ dq ++ render e ++ dq)) w')
  /\ is_NameError UnboundLocalError = true.
Proof.
  split; [|reflexivity].
  unfold IPGetter.get_ip, bind, try_prov. rewrite Hfail. reflexivity.
Qed.

Lemma get_ip_caught_error_name_error_witness :
  let h := const_service (mkResponse 500 "INTERNAL SERVER ERROR" (JObj [])) in
  let self := IPGetter.mk base_url token "node1" "eth1" (JInt (-1)) in
  let e := MsgFetch (machine_query_url base_url "node1") 500 "INTERNAL SERVER ERROR" in
  let w' := mkWorld tt 0 [] [EvReq 0 (Get token (machine_query_url base_url "node1"))] in
  IPGetter.get_interfaces h self world0 = (Raise (ProvisionerError e), w')
  /\ (IPGetter.get_ip h self world0
      = (Raise UnboundLocalError,
         log_event (EvPrint (clock w')
                      ("Could not fetch interface for machine : " ++ dq ++ render e ++ dq)) w')
      /\ is_NameError UnboundLocalError = true).
Proof.
  intros h self e w'.
  assert (H : IPGetter.get_interfaces h self world0 = (Raise (ProvisionerError e), w'))
    by reflexivity.
  split; [exact H|].
  exact (get_ip_caught_error_name_error h self world0 w' e H).
Defined.

(** ** Netboot switch *)

Example run_module_node1 :
  snd (NetbootSwitcher.run_module (node1_service []) "node1" base_url token "5" world0)
  = mkWorld tt 5 []
      [EvReq 0 (Get token (machine_query_url base_url "node1"));
       EvReq 0 (Get token (machine_query_url base_url "node1"));
       EvSleep 0 5;
       EvReq 5 (Put token "http://192.168.0.3:5000/api/v1/machine/7"
                  (JObj [("id", JInt 7); ("name", JStr "node1");
                         ("netboot_enabled", JBool false)]))].
Proof. reflexivity. Qed.

Lemma netboot_init_ok {S} (handle : S -> request -> S * response)
    (w : world S) (s1 : S) (url tok name rs : string) (m : json) :
  handle (srv w) (Get tok (machine_query_url url name))
    = (s1, mkResponse 200 rs (JList [m])) ->
  NetbootSwitcher.init handle url tok name w
  = (Ret (NetbootSwitcher.mk url tok m),
     after_request w s1 (Get tok (machine_query_url url name))).
Proof.
  intros H. unfold NetbootSwitcher.init, NetbootSwitcher.get_machine_by_name.
  unfold bind, send. rewrite H. reflexivity.
Qed.




(** ** Preseed upsert ([mr_provisioner_preseed.py]) *)

(** A listed preseed with a ['name'] other than [name]. *)
Definition named_other (name : string) (p : json) : Prop :=
  exists n, getitem p "name" = Ret n /\ eq_str n name = false.

Lemma scan_preseeds_skip (self : uploader) (pre rest : list json) :
  Forall (named_other (u_name self)) pre ->
  scan_preseeds self (pre ++ rest) = scan_preseeds self rest.
Proof.
  induction 1 as [|p pre [n [Hn Hne]] _ IH]; [reflexivity|].
  simpl. rewrite Hn. simpl. rewrite Hne. exact IH.
Qed.

Lemma scan_preseeds_found (self : uploader) (pre post : list json) (e vid : json) :
  Forall (named_other (u_name self)) pre ->
  getitem e "name" = Ret (JStr (u_name self)) ->
  getitem e "id" = Ret vid ->
  scan_preseeds self (pre ++ e :: post) = Ret (set_id self vid, true).
Proof.
  intros Hpre Hn Hi. rewrite scan_preseeds_skip by exact Hpre.
  simpl. rewrite Hn. simpl. rewrite String.eqb_refl, Hi. reflexivity.
Qed.

Lemma scan_preseeds_absent (self : uploader) (l : list json) :
  Forall (named_other (u_name self)) l ->
  scan_preseeds self l = Ret (self, false).
Proof.
  intros H. rewrite <- (app_nil_r l). rewrite scan_preseeds_skip by exact H.
  reflexivity.
Qed.


Lemma check_for_existence_ok {S} (handle : S -> request -> S * response)
    (self : uploader) (w : world S) (s1 : S) (rs : string) (l : list json)
    (o : outcome (uploader * bool)) :
  handle (srv w) (Get (u_authhead self) (preseed_list_url (u_url self)))
    = (s1, mkResponse 200 rs (JList l)) ->
  scan_preseeds self l = o ->
  check_for_existence handle self w
  = (o, after_request w s1 (Get (u_authhead self) (preseed_list_url (u_url self)))).
Proof.
  intros H Hs. unfold check_for_existence, bind, send. rewrite H.
  cbn [status_code body Z.eqb Pos.eqb negb]. unfold lift, py_iter. rewrite Hs.
  reflexivity.
Qed.

Lemma read_file_ok {S} (p c : string) (w : world S) :
  lookup_file p (files w) = Some c -> read_file p w = (Ret c, w).
Proof. intros H. unfold read_file. rewrite H. reflexivity. Qed.

Lemma upload_existing {S} (handle : S -> request -> S * response)
    (self : uploader) (w : world S) (s1 s2 : S) (rs : string)
    (pre post : list json) (e vid : json) (c : string) (r2 : response) :
  handle (srv w) (Get (u_authhead self) (preseed_list_url (u_url self)))
    = (s1, mkResponse 200 rs (JList (pre ++ e :: post))) ->
  Forall (named_other (u_name self)) pre ->
  getitem e "name" = Ret (JStr (u_name self)) ->
  getitem e "id" = Ret vid ->
  ne_minus1 vid = true ->
  lookup_file (u_file self) (files w) = Some c ->
  u_file self <> "/dev/null" ->
  handle s1 (Put (u_authhead self) (preseed_url (u_url self) vid) (preseed_doc self c))
    = (s2, r2) ->
  MrpPreseed.upload_preseed handle self w
  = (if status_code r2 =? 200 then Ret (body r2)
     else Ret (error_dict (render (MsgPutPreseedWrapped (u_name self) vid
                                     (status_code r2) (reason r2)))),
     after_request
       (after_request w s1 (Get (u_authhead self) (preseed_list_url (u_url self))))
       s2 (Put (u_authhead self) (preseed_url (u_url self) vid) (preseed_doc self c))).
Proof.
  intros Hget Hpre Hn Hi Hvid Hf Hnd Hput.
  unfold MrpPreseed.upload_preseed. unfold bind at 1, try_prov.
  rewrite (check_for_existence_ok handle self w s1 rs _ _ Hget
             (scan_preseeds_found self pre post e vid Hpre Hn Hi)).
  cbn iota beta.
  assert (Hnd' : String.eqb (u_file self) "/dev/null" = false)
    by (apply String.eqb_neq; exact Hnd).
  cbn [u_file u_id u_url u_name u_authhead set_id]. rewrite Hnd', Hvid.
  cbn [negb andb].
  unfold MrpPreseed.modify_preseed. cbn [u_id set_id]. rewrite Hvid. cbn [negb].
  assert (Hdoc : preseed_doc (set_id self vid) c = preseed_doc self c) by reflexivity.
  unfold bind, get_preseed_from_file, read_file, send, ret, raise.
  cbn [after_request files srv clock log u_file u_id u_url u_name u_authhead set_id].
  unfold bind. cbn [after_request files srv clock log].
  rewrite Hf. cbn [after_request files srv clock log]. rewrite Hdoc, Hput.
  destruct (status_code r2 =? 200); reflexivity.
Qed.

Lemma set_id_same (self : uploader) : set_id self (u_id self) = self.
Proof. destruct self; reflexivity. Qed.

(** The listing scan leaves an id of -1 (or no entry at all): the upload
    POSTs the document. *)
Lemma upload_post_gen {S} (handle : S -> request -> S * response)
    (self : uploader) (w : world S) (s1 s2 : S) (rs : string)
    (l : list json) (v : json) (b : bool) (c : string) (r2 : response) :
  handle (srv w) (Get (u_authhead self) (preseed_list_url (u_url self)))
    = (s1, mkResponse 200 rs (JList l)) ->
  scan_preseeds self l = Ret (set_id self v, b) ->
  ne_minus1 v = false ->
  lookup_file (u_file self) (files w) = Some c ->
  u_file self <> "/dev/null" ->
  handle s1 (Post (u_authhead self) (urljoin (u_url self) "/api/v1/preseed")
               (preseed_doc self c)) = (s2, r2) ->
  MrpPreseed.upload_preseed handle self w
  = (if status_code r2 =? 201 then Ret (body r2)
     else Raise (ProvisionerError (MsgPostPreseedWrapped (u_name self)
                                     (status_code r2) (reason r2))),
     after_request
       (after_request w s1 (Get (u_authhead self) (preseed_list_url (u_url self))))
       s2 (Post (u_authhead self) (urljoin (u_url self) "/api/v1/preseed")
             (preseed_doc self c))).
Proof.
  intros Hget Hs Hv Hf Hnd Hpost.
  unfold MrpPreseed.upload_preseed. unfold bind at 1, try_prov.
  rewrite (check_for_existence_ok handle self w s1 rs _ _ Hget Hs).
  cbn iota beta.
  assert (Hnd' : String.eqb (u_file self) "/dev/null" = false)
    by (apply String.eqb_neq; exact Hnd).
  cbn [u_file u_id u_url u_name u_authhead set_id]. rewrite Hnd', Hv, andb_false_r.
  cbn [negb andb].
  assert (Hdoc : preseed_doc (set_id self v) c = preseed_doc self c) by reflexivity.
  unfold get_preseed_from_file, read_file, send, ret, raise, bind.
  cbn [after_request files srv clock log u_file u_url u_name u_authhead set_id].
  rewrite Hf. cbn [after_request files srv clock log]. rewrite Hdoc, Hpost.
  destruct (status_code r2 =? 201); reflexivity.
Qed.

Lemma upload_new {S} (handle : S -> request -> S * response)
    (self : uploader) (w : world S) (s1 s2 : S) (rs : string)
    (l : list json) (c : string) (r2 : response) :
  handle (srv w) (Get (u_authhead self) (preseed_list_url (u_url self)))
    = (s1, mkResponse 200 rs (JList l)) ->
  Forall (named_other (u_name self)) l ->
  ne_minus1 (u_id self) = false ->
  lookup_file (u_file self) (files w) = Some c ->
  u_file self <> "/dev/null" ->
  handle s1 (Post (u_authhead self) (urljoin (u_url self) "/api/v1/preseed")
               (preseed_doc self c)) = (s2, r2) ->
  MrpPreseed.upload_preseed handle self w
  = (if status_code r2 =? 201 then Ret (body r2)
     else Raise (ProvisionerError (MsgPostPreseedWrapped (u_name self)
                                     (status_code r2) (reason r2))),
     after_request
       (after_request w s1 (Get (u_authhead self) (preseed_list_url (u_url self))))
       s2 (Post (u_authhead self) (urljoin (u_url self) "/api/v1/preseed")
             (preseed_doc self c))).
Proof.
  intros Hget Habs Hid Hf Hnd Hpost.
  apply (upload_post_gen handle self w s1 s2 rs l (u_id self) false c r2 Hget);
    [rewrite set_id_same; exact (scan_preseeds_absent self l Habs)|exact Hid|exact Hf
    |exact Hnd|exact Hpost].
Qed.

(** The first entry named [self.name] has id -1: the upload POSTs. *)
Lemma upload_found_minus1 {S} (handle : S -> request -> S * response)
    (self : uploader) (w : world S) (s1 s2 : S) (rs : string)
    (pre post : list json) (e : json) (c : string) (r2 : response) :
  handle (srv w) (Get (u_authhead self) (preseed_list_url (u_url self)))
    = (s1, mkResponse 200 rs (JList (pre ++ e :: post))) ->
  Forall (named_other (u_name self)) pre ->
  getitem e "name" = Ret (JStr (u_name self)) ->
  getitem e "id" = Ret (JInt (-1)) ->
  lookup_file (u_file self) (files w) = Some c ->
  u_file self <> "/dev/null" ->
  handle s1 (Post (u_authhead self) (urljoin (u_url self) "/api/v1/preseed")
               (preseed_doc self c)) = (s2, r2) ->
  MrpPreseed.upload_preseed handle self w
  = (if status_code r2 =? 201 then Ret (body r2)
     else Raise (ProvisionerError (MsgPostPreseedWrapped (u_name self)
                                     (status_code r2) (reason r2))),
     after_request
       (after_request w s1 (Get (u_authhead self) (preseed_list_url (u_url self))))
       s2 (Post (u_authhead self) (urljoin (u_url self) "/api/v1/preseed")
             (preseed_doc self c))).
Proof.
  intros Hget Hpre Hn Hi Hf Hnd Hpost.
  exact (upload_post_gen handle self w s1 s2 rs _ (JInt (-1)) true c r2 Hget
           (scan_preseeds_found self pre post e (JInt (-1)) Hpre Hn Hi) eq_refl Hf Hnd Hpost).
Qed.

Lemma upload_absent_no_file {S} (handle : S -> request -> S * response)
    (self : uploader) (w : world S) (s1 : S) (rs : string) (l : list json) :
  handle (srv w) (Get (u_authhead self) (preseed_list_url (u_url self)))
    = (s1, mkResponse 200 rs (JList l)) ->
  Forall (named_other (u_name self)) l ->
  u_file self = "/dev/null" ->
  MrpPreseed.upload_preseed handle self w
  = (Ret (error_dict "Preseed does not exist and file not given"),
     after_request w s1 (Get (u_authhead self) (preseed_list_url (u_url self)))).
Proof.
  intros Hget Habs Hnd.
  unfold MrpPreseed.upload_preseed. unfold bind at 1, try_prov.
  rewrite (check_for_existence_ok handle self w s1 rs _ _ Hget
             (scan_preseeds_absent self l Habs)).
  cbn iota beta. rewrite Hnd. reflexivity.
Qed.

Lemma upload_found_no_file {S} (handle : S -> request -> S * response)
    (self : uploader) (w : world S) (s1 : S) (rs : string)
    (pre post : list json) (e vid : json) :
  handle (srv w) (Get (u_authhead self) (preseed_list_url (u_url self)))
    = (s1, mkResponse 200 rs (JList (pre ++ e :: post))) ->
  Forall (named_other (u_name self)) pre ->
  getitem e "name" = Ret (JStr (u_name self)) ->
  getitem e "id" = Ret vid ->
  u_file self = "/dev/null" ->
  MrpPreseed.upload_preseed handle self w
  = (Ret (JObj []),
     after_request w s1 (Get (u_authhead self) (preseed_list_url (u_url self)))).
Proof.
  intros Hget Hpre Hn Hi Hnd.
  unfold MrpPreseed.upload_preseed. unfold bind at 1, try_prov.
  rewrite (check_for_existence_ok handle self w s1 rs _ _ Hget
             (scan_preseeds_found self pre post e vid Hpre Hn Hi)).
  cbn iota beta. cbn [u_file set_id]. rewrite Hnd. cbn.
  rewrite andb_false_r. reflexivity.
Qed.

(** [run_module] on the outcome of [upload_preseed]. *)
Lemma run_module_upload {S} (handle : S -> request -> S * response)
    (self : uploader) (w w' : world S) (o : outcome json) :
  MrpPreseed.upload_preseed handle self w = (o, w') ->
  fst (MrpPreseed.run_module handle self w)
  = match o with
    | Ret res =>
        b <-? py_in "error" res ;;
        if b then (m <-? getitem res "error" ;; Ret (ModuleFail m))
        else Ret (ModuleExit res)
    | Raise (ProvisionerError e) => Ret (ModuleFail (JStr (render e)))
    | Raise e => Raise e
    end.
Proof.
  intros H. unfold MrpPreseed.run_module, bind at 1, try_prov. rewrite H.
  destruct o as [res|[]]; try reflexivity.
  unfold bind, lift, ret. simpl.
  destruct (py_in "error" res) as [[|]|]; simpl; try reflexivity.
  destruct (getitem res "error"); reflexivity.
Qed.

Lemma requests_of_app (l1 l2 : list event) :
  requests_of (l1 ++ l2) = (requests_of l1 ++ requests_of l2)%list.
Proof.
  induction l1 as [|[] l1 IH]; simpl; rewrite ?IH; reflexivity.
Qed.

(** C3 (amended): with file contents [c] and a fresh uploader
    ([self.id == -1]): when the first listed entry named [self.name] (the
    entry [e]) has an id [vid] other than -1, exactly one PUT of the
    document read from the file is issued at [/api/v1/preseed/<vid>], and
    a non-200 answer makes the module fail with the "Error putting
    preseed" message; when no entry has that name, or the first one has
    id -1, exactly one POST of that document is issued, and a non-201
    answer raises the "Error posting preseed" error, on which the module
    fails. *)
Theorem upsert_dispatch {S} (handle : S -> request -> S * response)
    (self : uploader) (w : world S) (s1 : S) (rs c : string) (l : list json)
    (Hfresh : u_id self = JInt (-1))
    (Hget : handle (srv w) (Get (u_authhead self) (preseed_list_url (u_url self)))
            = (s1, mkResponse 200 rs (JList l)))
    (Hf : lookup_file (u_file self) (files w) = Some c)
    (Hnd : u_file self <> "/dev/null") :
  let list_rq := Get (u_authhead self) (preseed_list_url (u_url self)) in
  (forall pre e post vid s2 r2,
      l = (pre ++ e :: post)%list ->
      Forall (named_other (u_name self)) pre ->
      getitem e "name" = Ret (JStr (u_name self)) ->
      getitem e "id" = Ret vid -> ne_minus1 vid = true ->
      let put_rq := Put (u_authhead self) (preseed_url (u_url self) vid)
                        (preseed_doc self c) in
      handle s1 put_rq = (s2, r2) ->
      requests_of (log (snd (MrpPreseed.upload_preseed handle self w)))
        = (requests_of (log w) ++ [list_rq; put_rq])%list
      /\ (status_code r2 = 200 ->
          fst (MrpPreseed.upload_preseed handle self w) = Ret (body r2))
      /\ (status_code r2 <> 200 ->
          fst (MrpPreseed.run_module handle self w)
          = Ret (ModuleFail (JStr (render (MsgPutPreseedWrapped (u_name self) vid
                                             (status_code r2) (reason r2)))))))
  /\ (forall s2 r2,
        Forall (named_other (u_name self)) l
        \/ (exists pre e post, l = (pre ++ e :: post)%list
             /\ Forall (named_other (u_name self)) pre
             /\ getitem e "name" = Ret (JStr (u_name self))
             /\ getitem e "id" = Ret (JInt (-1))) ->
        let post_rq := Post (u_authhead self) (urljoin (u_url self) "/api/v1/preseed")
                            (preseed_doc self c) in
        handle s1 post_rq = (s2, r2) ->
        requests_of (log (snd (MrpPreseed.upload_preseed handle self w)))
          = (requests_of (log w) ++ [list_rq; post_rq])%list
        /\ (status_code r2 = 201 ->
            fst (MrpPreseed.upload_preseed handle self w) = Ret (body r2))
        /\ (status_code r2 <> 201 ->
            fst (MrpPreseed.upload_preseed handle self w)
            = Raise (ProvisionerError (MsgPostPreseedWrapped (u_name self)
                                         (status_code r2) (reason r2)))
            /\ fst (MrpPreseed.run_module handle self w)
               = Ret (ModuleFail (JStr (render (MsgPostPreseedWrapped (u_name self)
                                                  (status_code r2) (reason r2))))))).
Proof.
  intros list_rq. split.
  - intros pre e post vid s2 r2 -> Hpre Hn Hi Hvid put_rq Hput.
    pose proof (upload_existing handle self w s1 s2 rs pre post e vid c r2
                  Hget Hpre Hn Hi Hvid Hf Hnd Hput) as U.
    rewrite U. cbn [fst snd after_request log].
    rewrite !requests_of_app, <- app_assoc. split; [reflexivity|]. split.
    + intros H2. rewrite H2. reflexivity.
    + intros H2. rewrite (run_module_upload handle self w _ _ U).
      apply Z.eqb_neq in H2. rewrite H2. reflexivity.
  - intros s2 r2 Hl post_rq Hpost.
    assert (Hid : ne_minus1 (u_id self) = false) by (rewrite Hfresh; reflexivity).
    assert (U : MrpPreseed.upload_preseed handle self w
      = (if status_code r2 =? 201 then Ret (body r2)
         else Raise (ProvisionerError (MsgPostPreseedWrapped (u_name self)
                                         (status_code r2) (reason r2))),
         after_request (after_request w s1 list_rq) s2 post_rq)).
    { destruct Hl as [Habs|[pre [e [post [-> [Hpre [Hn Hi]]]]]]].
      - exact (upload_new handle self w s1 s2 rs l c r2 Hget Habs Hid Hf Hnd Hpost).
      - exact (upload_found_minus1 handle self w s1 s2 rs pre post e c r2
                 Hget Hpre Hn Hi Hf Hnd Hpost). }
    rewrite U. cbn [fst snd after_request log].
    rewrite !requests_of_app, <- app_assoc. split; [reflexivity|]. split.
    + intros H2. rewrite H2. reflexivity.
    + intros H2. apply Z.eqb_neq in H2. rewrite H2. split; [reflexivity|].
      rewrite (run_module_upload handle self w _ _ U). rewrite H2. reflexivity.
Qed.

Definition p1_entry : json :=
  JObj [("id", JInt 3); ("name", JStr "p1"); ("content", JStr "old")].

Definition p1_uploader (file : string) : uploader :=
  new_uploader base_url token file "p1" "preseed" "" false false.

Definition files_p1 : world unit := mkWorld tt 0 [("./p1.txt", "X")] [].

(** A service whose preseed listing is [l]. *)
Definition listing_service (l : list json) : unit -> request -> unit * response :=
  table_service [(preseed_list_url base_url, mkResponse 200 "OK" (JList l))].

Lemma upsert_dispatch_witness :
  let self := p1_uploader "./p1.txt" in
  let h := listing_service [p1_entry] in
  u_id self = JInt (-1)
  /\ h (srv files_p1) (Get (u_authhead self) (preseed_list_url (u_url self)))
     = (tt, mkResponse 200 "OK" (JList [p1_entry]))
  /\ lookup_file (u_file self) (files files_p1) = Some "X"
  /\ u_file self <> "/dev/null"
  /\ (let list_rq := Get (u_authhead self) (preseed_list_url (u_url self)) in
      (forall pre e post vid s2 r2,
          [p1_entry] = (pre ++ e :: post)%list ->
          Forall (named_other (u_name self)) pre ->
          getitem e "name" = Ret (JStr (u_name self)) ->
          getitem e "id" = Ret vid -> ne_minus1 vid = true ->
          let put_rq := Put (u_authhead self) (preseed_url (u_url self) vid)
                            (preseed_doc self "X") in
          h tt put_rq = (s2, r2) ->
          requests_of (log (snd (MrpPreseed.upload_preseed h self files_p1)))
            = (requests_of (log files_p1) ++ [list_rq; put_rq])%list
          /\ (status_code r2 = 200 ->
              fst (MrpPreseed.upload_preseed h self files_p1) = Ret (body r2))
          /\ (status_code r2 <> 200 ->
              fst (MrpPreseed.run_module h self files_p1)
              = Ret (ModuleFail (JStr (render (MsgPutPreseedWrapped (u_name self) vid
                                                 (status_code r2) (reason r2)))))))
      /\ (forall s2 r2,
            Forall (named_other (u_name self)) [p1_entry]
            \/ (exists pre e post, [p1_entry] = (pre ++ e :: post)%list
                 /\ Forall (named_other (u_name self)) pre
                 /\ getitem e "name" = Ret (JStr (u_name self))
                 /\ getitem e "id" = Ret (JInt (-1))) ->
            let post_rq := Post (u_authhead self) (urljoin (u_url self) "/api/v1/preseed")
                                (preseed_doc self "X") in
            h tt post_rq = (s2, r2) ->
            requests_of (log (snd (MrpPreseed.upload_preseed h self files_p1)))
              = (requests_of (log files_p1) ++ [list_rq; post_rq])%list
            /\ (status_code r2 = 201 ->
                fst (MrpPreseed.upload_preseed h self files_p1) = Ret (body r2))
            /\ (status_code r2 <> 201 ->
                fst (MrpPreseed.upload_preseed h self files_p1)
                = Raise (ProvisionerError (MsgPostPreseedWrapped (u_name self)
                                             (status_code r2) (reason r2)))
                /\ fst (MrpPreseed.run_module h self files_p1)
                   = Ret (ModuleFail (JStr (render (MsgPostPreseedWrapped (u_name self)
                                                      (status_code r2) (reason r2)))))))).
Proof.
  intros self h.
  assert (H1 : u_id self = JInt (-1)) by reflexivity.
  assert (H2 : h (srv files_p1) (Get (u_authhead self) (preseed_list_url (u_url self)))
               = (tt, mkResponse 200 "OK" (JList [p1_entry]))) by reflexivity.
  assert (H3 : lookup_file (u_file self) (files files_p1) = Some "X") by reflexivity.
  assert (H4 : u_file self <> "/dev/null") by (apply String.eqb_neq; reflexivity).
  do 4 (split; [assumption|]).
  exact (upsert_dispatch h self files_p1 tt "OK" "X" [p1_entry] H1 H2 H3 H4).
Defined.

(** C3 as stated fails: the listing has an entry named "p1" whose id is
    -1; [check_for_existence] copies that id, [upload_preseed] takes the
    create branch, and the requests are the listing GET and a POST, with
    no PUT. *)
Lemma upsert_minus1_id_posts :
  let self := p1_uploader "./p1.txt" in
  let entry := JObj [("id", JInt (-1)); ("name", JStr "p1")] in
  let h := listing_service [entry] in
  getitem entry "name" = Ret (JStr (u_name self))
  /\ requests_of (log (snd (MrpPreseed.upload_preseed h self files_p1)))
     = [Get (u_authhead self) (preseed_list_url (u_url self));
        Post (u_authhead self) (urljoin (u_url self) "/api/v1/preseed")
          (preseed_doc self "X")].
Proof. split; reflexivity. Qed.

(** C5: when no listed preseed has the name and the file is ["/dev/null"],
    [upload_preseed] returns the "Preseed does not exist and file not
    given" error (MissingContent), on which the module fails; the only
    request issued is the listing GET, no POST or PUT. *)
Theorem upsert_missing_content {S} (handle : S -> request -> S * response)
    (self : uploader) (w : world S) (s1 : S) (rs : string) (l : list json)
    (Hget : handle (srv w) (Get (u_authhead self) (preseed_list_url (u_url self)))
            = (s1, mkResponse 200 rs (JList l)))
    (Habs : Forall (named_other (u_name self)) l)
    (Hnull : u_file self = "/dev/null") :
  fst (MrpPreseed.upload_preseed handle self w)
    = Ret (error_dict "Preseed does not exist and file not given")
  /\ fst (MrpPreseed.run_module handle self w)
     = Ret (ModuleFail (JStr "Preseed does not exist and file not given"))
  /\ requests_of (log (snd (MrpPreseed.upload_preseed handle self w)))
     = (requests_of (log w) ++ [Get (u_authhead self) (preseed_list_url (u_url self))])%list
  /\ srv (snd (MrpPreseed.upload_preseed handle self w)) = s1.
Proof.
  pose proof (upload_absent_no_file handle self w s1 rs l Hget Habs Hnull) as U.
  rewrite (run_module_upload handle self w _ _ U), U.
  cbn [fst snd after_request log srv]. rewrite requests_of_app.
  repeat split; reflexivity.
Qed.

Lemma upsert_missing_content_witness :
  let self := p1_uploader "/dev/null" in
  let h := listing_service [] in
  h (srv files_p1) (Get (u_authhead self) (preseed_list_url (u_url self)))
    = (tt, mkResponse 200 "OK" (JList []))
  /\ Forall (named_other (u_name self)) []
  /\ u_file self = "/dev/null"
  /\ (fst (MrpPreseed.upload_preseed h self files_p1)
        = Ret (error_dict "Preseed does not exist and file not given")
      /\ fst (MrpPreseed.run_module h self files_p1)
         = Ret (ModuleFail (JStr "Preseed does not exist and file not given"))
      /\ requests_of (log (snd (MrpPreseed.upload_preseed h self files_p1)))
         = (requests_of (log files_p1)
            ++ [Get (u_authhead self) (preseed_list_url (u_url self))])%list
      /\ srv (snd (MrpPreseed.upload_preseed h self files_p1)) = tt).
Proof.
  intros self h.
  assert (H1 : h (srv files_p1) (Get (u_authhead self) (preseed_list_url (u_url self)))
               = (tt, mkResponse 200 "OK" (JList []))) by reflexivity.
  assert (H2 : Forall (named_other (u_name self)) []) by (apply Forall_nil).
  assert (H3 : u_file self = "/dev/null") by reflexivity.
  do 3 (split; [assumption|]).
  exact (upsert_missing_content h self files_p1 tt "OK" [] H1 H2 H3).
Defined.

(** C7 as stated fails: preseed p1 exists (id 3) and the file is
    ["/dev/null"]; [upload_preseed] returns the empty dict, not the
    discovered record. *)
Lemma discover_returns_empty_dict :
  let h := listing_service [p1_entry] in
  fst (MrpPreseed.upload_preseed h (p1_uploader "/dev/null") files_p1) = Ret (JObj [])
  /\ JObj [] <> p1_entry.
Proof. split; [reflexivity | discriminate]. Qed.

(** C7 (amended): when a listed preseed has the name and the file is
    ["/dev/null"], [upload_preseed] issues only the listing GET (no POST,
    no PUT) and returns the empty dict; the module then exits with it. *)
Theorem upsert_discovery_only {S} (handle : S -> request -> S * response)
    (self : uploader) (w : world S) (s1 : S) (rs : string)
    (pre post : list json) (e vid : json)
    (Hget : handle (srv w) (Get (u_authhead self) (preseed_list_url (u_url self)))
            = (s1, mkResponse 200 rs (JList (pre ++ e :: post))))
    (Hpre : Forall (named_other (u_name self)) pre)
    (Hn : getitem e "name" = Ret (JStr (u_name self)))
    (Hi : getitem e "id" = Ret vid)
    (Hnull : u_file self = "/dev/null") :
  fst (MrpPreseed.upload_preseed handle self w) = Ret (JObj [])
  /\ fst (MrpPreseed.run_module handle self w) = Ret (ModuleExit (JObj []))
  /\ requests_of (log (snd (MrpPreseed.upload_preseed handle self w)))
     = (requests_of (log w) ++ [Get (u_authhead self) (preseed_list_url (u_url self))])%list.
Proof.
  pose proof (upload_found_no_file handle self w s1 rs pre post e vid Hget Hpre Hn Hi Hnull)
    as U.
  rewrite (run_module_upload handle self w _ _ U), U.
  cbn [fst snd after_request log]. rewrite requests_of_app.
  repeat split; reflexivity.
Qed.

Lemma upsert_discovery_only_witness :
  let self := p1_uploader "/dev/null" in
  let h := listing_service [p1_entry] in
  h (srv files_p1) (Get (u_authhead self) (preseed_list_url (u_url self)))
    = (tt, mkResponse 200 "OK" (JList ([] ++ p1_entry :: [])))
  /\ Forall (named_other (u_name self)) []
  /\ getitem p1_entry "name" = Ret (JStr (u_name self))
  /\ getitem p1_entry "id" = Ret (JInt 3)
  /\ u_file self = "/dev/null"
  /\ (fst (MrpPreseed.upload_preseed h self files_p1) = Ret (JObj [])
      /\ fst (MrpPreseed.run_module h self files_p1) = Ret (ModuleExit (JObj []))
      /\ requests_of (log (snd (MrpPreseed.upload_preseed h self files_p1)))
         = (requests_of (log files_p1)
            ++ [Get (u_authhead self) (preseed_list_url (u_url self))])%list).
Proof.
  intros self h.
  assert (H1 : h (srv files_p1) (Get (u_authhead self) (preseed_list_url (u_url self)))
               = (tt, mkResponse 200 "OK" (JList ([] ++ p1_entry :: [])))) by reflexivity.
  assert (H2 : Forall (named_other (u_name self)) []) by (apply Forall_nil).
  assert (H3 : getitem p1_entry "name" = Ret (JStr (u_name self))) by reflexivity.
  assert (H4 : getitem p1_entry "id" = Ret (JInt 3)) by reflexivity.
  assert (H5 : u_file self = "/dev/null") by reflexivity.
  do 5 (split; [assumption|]).
  exact (upsert_discovery_only h self files_p1 tt "OK" [] [] p1_entry (JInt 3)
           H1 H2 H3 H4 H5).
Defined.

(** ** The two [PreseedUploader] variants *)

(** A service whose listing fails with HTTP 500 and which accepts POSTs. *)
Definition broken_listing_service : unit -> request -> unit * response :=
  fun _ rq => match rq with
              | Get _ _ => (tt, mkResponse 500 "INTERNAL SERVER ERROR" (JObj []))
              | Post _ _ d => (tt, mkResponse 201 "CREATED" d)
              | Put _ _ d => (tt, mkResponse 200 "OK" d)
              end.

(** C9: on an input where the listing fetch fails, the uploader of
    [preseed_upload_module.py] prints the error and goes on to POST the
    file, while the one of [mr_provisioner_preseed.py] returns the error
    dict and issues no other request. *)
Theorem preseed_variants_diverge :
  exists (h : unit -> request -> unit * response) (self : uploader) (w : world unit) (e : msg),
    check_for_existence h self w
      = (Raise (ProvisionerError e),
         after_request w tt (Get (u_authhead self) (preseed_list_url (u_url self))))
    /\ fst (PreseedUploadModule.upload_preseed h self w) = Ret tt
    /\ requests_of (log (snd (PreseedUploadModule.upload_preseed h self w)))
       = [Get (u_authhead self) (preseed_list_url (u_url self));
          Post (u_authhead self) (urljoin (u_url self) "/api/v1/preseed") (preseed_doc self "X")]
    /\ In (EvPrint 0 (render e)) (log (snd (PreseedUploadModule.upload_preseed h self w)))
    /\ fst (MrpPreseed.upload_preseed h self w) = Ret (error_dict (render e))
    /\ requests_of (log (snd (MrpPreseed.upload_preseed h self w)))
       = [Get (u_authhead self) (preseed_list_url (u_url self))].
Proof.
  exists broken_listing_service, (p1_uploader "./p1.txt"), files_p1,
    (MsgFetch (preseed_list_url base_url) 500 "INTERNAL SERVER ERROR").
  repeat split; try reflexivity.
  simpl. auto.
Qed.

(** ** Sequential upserts against a reference service *)

(** A preseed store as the provisioning service keeps it: the listing
    returns every stored preseed; a POST stores the document under the next
    id; a PUT replaces the preseed whose URL it names. *)
Record mrp_state : Type := mkMrp {
  preseeds : list json;
  next_id : Z
}.

Definition with_id (i : json) (d : json) : json :=
  match d with
  | JObj kvs => JObj (("id", i) :: kvs)
  | other => other
  end.

Fixpoint put_preseed (base u : string) (d : json) (ps : list json)
  : option (list json * json) :=
  match ps with
  | [] => None
  | p :: rest =>
      match getitem p "id" with
      | Ret i =>
          if String.eqb u (preseed_url base i) then Some (with_id i d :: rest, with_id i d)
          else match put_preseed base u d rest with
               | Some (rest', p') => Some (p :: rest', p')
               | None => None
               end
      | Raise _ =>
          match put_preseed base u d rest with
          | Some (rest', p') => Some (p :: rest', p')
          | None => None
          end
      end
  end.

Definition not_found : response := mkResponse 404 "NOT FOUND" (JObj []).

Definition mrp_service (base : string) (st : mrp_state) (rq : request)
  : mrp_state * response :=
  match rq with
  | Get _ u =>
      if String.eqb u (preseed_list_url base)
      then (st, mkResponse 200 "OK" (JList (preseeds st)))
      else (st, not_found)
  | Post _ u d =>
      if String.eqb u (urljoin base "/api/v1/preseed")
      then let p := with_id (JInt (next_id st)) d in
           (mkMrp (preseeds st ++ [p]) (next_id st + 1), mkResponse 201 "CREATED" p)
      else (st, not_found)
  | Put _ u d =>
      match put_preseed base u d (preseeds st) with
      | Some (ps', p) => (mkMrp ps' (next_id st), mkResponse 200 "OK" p)
      | None => (st, not_found)
      end
  end.

(** The stored preseeds named [name]. *)
Definition named (name : string) (ps : list json) : list json :=
  filter (fun p => match getitem p "name" with
                   | Ret v => eq_str v name
                   | Raise _ => false
                   end) ps.

Lemma str_of_Z_inj (a b : Z) : str_of_Z a = str_of_Z b -> a = b.
Proof.
  assert (Hisi : forall z, NilZero.int_of_string (str_of_Z z) = Some (Z.to_int z)).
  { intros z. unfold str_of_Z. apply NilZero.isi;
      destruct z as [|p|p]; simpl; intros Hx; inversion Hx as [Hy];
      try (apply (DecimalPos.Unsigned.to_uint_nonnil p); exact Hy). }
  intros H. pose proof (Hisi a) as Ha. rewrite H, Hisi in Ha.
  injection Ha as Ha. rewrite <- (DecimalZ.of_to a), <- (DecimalZ.of_to b), Ha.
  reflexivity.
Qed.

Lemma string_app_inv_l (s a b : string) : (s ++ a = s ++ b)%string -> a = b.
Proof.
  induction s as [|c s IH]; simpl; [auto|]. intros H. injection H as H. auto.
Qed.

Lemma str_app_assoc (a b c : string) : ((a ++ b) ++ c = a ++ b ++ c)%string.
Proof. induction a as [|x a IH]; simpl; [reflexivity|]. rewrite IH. reflexivity. Qed.

Lemma str_of_Z_num (z : Z) : str_forallb num_char (str_of_Z z) = true.
Proof.
  assert (Hu : forall u, str_forallb num_char (NilEmpty.string_of_uint u) = true).
  { induction u; simpl; try rewrite IHu; reflexivity. }
  assert (Hz : forall u, str_forallb num_char (NilZero.string_of_uint u) = true).
  { intros u; destruct u; [reflexivity|exact (Hu _)..]. }
  unfold str_of_Z, NilZero.string_of_int.
  destruct (Z.to_int z) as [u|u]; exact (Hz u).
Qed.

Lemma num_char_neq (c d : ascii) :
  num_char c = true -> num_char d = false -> Ascii.eqb c d = false.
Proof.
  intros Hc Hd. destruct (Ascii.eqb c d) eqn:E; [|reflexivity].
  apply Ascii.eqb_eq in E. subst. congruence.
Qed.

Lemma num_remove_unsafe (t : string) :
  str_forallb num_char t = true -> remove_unsafe t = t.
Proof.
  induction t as [|a t IH]; simpl; intros H; [reflexivity|].
  apply andb_prop in H as [Hc Ht].
  assert (Hn : Nat.eqb (nat_of_ascii a) 9 || Nat.eqb (nat_of_ascii a) 13
               || Nat.eqb (nat_of_ascii a) 10 = false).
  { unfold num_char in Hc. apply orb_true_iff in Hc. destruct Hc as [Hc|Hc].
    - unfold is_digit in Hc. apply andb_prop in Hc as [H1 H2].
      apply Nat.leb_le in H1, H2.
      repeat rewrite (proj2 (Nat.eqb_neq _ _)) by lia. reflexivity.
    - apply Ascii.eqb_eq in Hc. subst. reflexivity. }
  rewrite Hn, (IH Ht). reflexivity.
Qed.

Lemma num_split_first (d : ascii) (t : string) :
  num_char d = false -> str_forallb num_char t = true -> split_first d t = (t, None).
Proof.
  intros Hd. induction t as [|a t IH]; simpl; intros H; [reflexivity|].
  apply andb_prop in H as [Hc Ht].
  rewrite (num_char_neq a d Hc Hd), (IH Ht). reflexivity.
Qed.

Lemma num_split_on (t : string) :
  str_forallb num_char t = true -> split_on "/" t = [t].
Proof.
  induction t as [|a t IH]; simpl; intros H; [reflexivity|].
  apply andb_prop in H as [Hc Ht].
  rewrite (num_char_neq a "/" Hc eq_refl), (IH Ht). reflexivity.
Qed.

Lemma num_not_dots (t : string) :
  str_forallb num_char t = true -> String.eqb t "." = false /\ String.eqb t ".." = false.
Proof.
  intros H. split; apply String.eqb_neq; intros E; subst; discriminate H.
Qed.

(** [urljoin] puts the same text, found from the base alone, in front of
    every path "/api/v1/preseed/<n>". *)
Lemma urljoin_preseed_shape (base : string) :
  exists pre, forall t, str_forallb num_char t = true ->
    urljoin base ("/api/v1/preseed/" ++ t) = (pre ++ "/api/v1/preseed/" ++ t)%string.
Proof.
  unfold urljoin. destruct (String.eqb base "").
  { exists ""%string. reflexivity. }
  destruct (split_base base) as [scheme bnetloc].
  destruct (in_list scheme uses_relative).
  2:{ exists ""%string. reflexivity. }
  set (nl := if in_list scheme uses_netloc then bnetloc else EmptyString).
  exists ((if String.eqb scheme "" then "" else scheme ++ ":")
          ++ (if negb (String.eqb nl "")
                 || (negb (String.eqb scheme "") && in_list scheme uses_netloc)
              then "//" ++ nl else ""))%string.
  intros t Ht. cbv zeta.
  destruct (num_not_dots t Ht) as [Hd1 Hd2].
  assert (H1 : remove_unsafe (lstrip_c0 ("/api/v1/preseed/" ++ t))
               = ("/api/v1/preseed/" ++ t)%string).
  { simpl. rewrite (num_remove_unsafe t Ht). reflexivity. }
  assert (H2 : split_first "#" ("/api/v1/preseed/" ++ t)
               = (("/api/v1/preseed/" ++ t)%string, None)).
  { simpl. rewrite (num_split_first "#" t eq_refl Ht). reflexivity. }
  assert (H3 : split_first "?" ("/api/v1/preseed/" ++ t)
               = (("/api/v1/preseed/" ++ t)%string, None)).
  { simpl. rewrite (num_split_first "?" t eq_refl Ht). reflexivity. }
  assert (Hs : split_on "/" ("/api/v1/preseed/" ++ t) = [""; "api"; "v1"; "preseed"; t]%string).
  { simpl. rewrite (num_split_on t Ht). reflexivity. }
  assert (H4 : splitparams ("/api/v1/preseed/" ++ t) = (("/api/v1/preseed/" ++ t)%string, ""%string)).
  { unfold splitparams. rewrite Hs. simpl.
    rewrite (num_split_first ";" t eq_refl Ht). reflexivity. }
  assert (H5 : str_join "/" (resolve_dots (split_on "/" ("/api/v1/preseed/" ++ t)))
               = ("/api/v1/preseed/" ++ t)%string).
  { rewrite Hs. unfold resolve_dots. simpl. rewrite Hd1, Hd2. reflexivity. }
  assert (H0 : String.eqb ("/api/v1/preseed/" ++ t) "" = false) by reflexivity.
  rewrite H0, H1, H2, H3. unfold urlunsplit, nl. clear nl.
  destruct (in_list scheme uses_params); [rewrite H4|]; cbv beta iota; rewrite H5;
    destruct (in_list scheme uses_netloc); destruct (String.eqb scheme "");
    destruct (String.eqb bnetloc ""); simpl; rewrite ?str_app_assoc; reflexivity.
Qed.

Lemma preseed_url_int_inj (base : string) (i j : Z) :
  preseed_url base (JInt i) = preseed_url base (JInt j) -> i = j.
Proof.
  intros H.
  change (urljoin base ("/api/v1/preseed/" ++ str_of_Z i)
          = urljoin base ("/api/v1/preseed/" ++ str_of_Z j)) in H.
  destruct (urljoin_preseed_shape base) as [pre Hpre].
  rewrite (Hpre _ (str_of_Z_num i)), (Hpre _ (str_of_Z_num j)) in H.
  apply string_app_inv_l, string_app_inv_l in H. apply str_of_Z_inj. exact H.
Qed.

Example upsert_twice_sample :
  let h := mrp_service base_url in
  let self := p1_uploader "./p1.txt" in
  let w0 := mkWorld (mkMrp [JObj [("id", JInt 1); ("name", JStr "other")]] 2) 0
                    [("./p1.txt", "X")] [] in
  let r1 := MrpPreseed.upload_preseed h self w0 in
  let r2 := MrpPreseed.upload_preseed h self (snd r1) in
  named "p1" (preseeds (srv (snd r2))) = [with_id (JInt 2) (preseed_doc self "X")]
  /\ length (requests_of (log (snd r2))) = 4%nat.
Proof. split; reflexivity. Qed.

(** A stored preseed with a name other than [name] and an integer id other
    than [next]. *)
Definition other_entry (name : string) (next : Z) (p : json) : Prop :=
  exists n i, getitem p "name" = Ret (JStr n) /\ n <> name
              /\ getitem p "id" = Ret (JInt i) /\ i <> next.

Lemma other_entry_named_other (name : string) (next : Z) (p : json) :
  other_entry name next p -> named_other name p.
Proof.
  intros [n [i [Hn [Hne _]]]]. exists (JStr n). split; [exact Hn|].
  simpl. apply String.eqb_neq. exact Hne.
Qed.

Lemma put_preseed_fresh (base name : string) (next : Z) (kvs : list (string * json))
    (ps : list json) :
  Forall (other_entry name next) ps ->
  let p := with_id (JInt next) (JObj kvs) in
  put_preseed base (preseed_url base (JInt next)) (JObj kvs) (ps ++ [p])%list
  = Some ((ps ++ [p])%list, p).
Proof.
  intros Hps p. induction Hps as [|q ps [n [i [_ [_ [Hi Hne]]]]] _ IH].
  - simpl. rewrite String.eqb_refl. reflexivity.
  - simpl. rewrite Hi.
    destruct (String.eqb (preseed_url base (JInt next)) (preseed_url base (JInt i))) eqn:E.
    + apply String.eqb_eq, preseed_url_int_inj in E. congruence.
    + rewrite IH. reflexivity.
Qed.

Lemma named_others (name : string) (next : Z) (ps rest : list json) :
  Forall (other_entry name next) ps -> named name (ps ++ rest)%list = named name rest.
Proof.
  induction 1 as [|p ps [n [i [Hn [Hne _]]]] _ IH]; [reflexivity|].
  simpl. rewrite Hn. simpl. apply String.eqb_neq in Hne. rewrite Hne. exact IH.
Qed.

(** C6: two sequential [upload_preseed] calls with the same name and file,
    against a store holding no preseed of that name: the first call lists
    and POSTs (creating the preseed under the next id), the second lists
    and PUTs at that id, never POSTing again; afterwards exactly one stored
    preseed has the name, and its content is the file's. *)
Theorem upsert_twice_one_create (base tok file name type desc : string) (kg pub : bool)
    (c : string) (ps : list json) (next t0 : Z) (fs : list (string * string))
    (lg : list event)
    (Hf : lookup_file file fs = Some c) (Hnd : file <> "/dev/null")
    (Hps : Forall (other_entry name next) ps) (Hnext : 0 <= next) :
  let self := new_uploader base tok file name type desc kg pub in
  let h := mrp_service base in
  let r1 := MrpPreseed.upload_preseed h self (mkWorld (mkMrp ps next) t0 fs lg) in
  let r2 := MrpPreseed.upload_preseed h self (snd r1) in
  let doc := preseed_doc self c in
  let created := with_id (JInt next) doc in
  fst r1 = Ret created
  /\ fst r2 = Ret created
  /\ requests_of (log (snd r2))
     = (requests_of lg ++
        [Get tok (preseed_list_url base);
         Post tok (urljoin base "/api/v1/preseed") doc;
         Get tok (preseed_list_url base);
         Put tok (preseed_url base (JInt next)) doc])%list
  /\ named name (preseeds (srv (snd r2))) = [created]
  /\ getitem created "content" = Ret (JStr c).
Proof.
  intros self h r1 r2 doc created.
  set (w := mkWorld (mkMrp ps next) t0 fs lg).
  assert (Hget1 : h (srv w) (Get (u_authhead self) (preseed_list_url (u_url self)))
                  = (mkMrp ps next, mkResponse 200 "OK" (JList ps))).
  { cbn. rewrite String.eqb_refl. reflexivity. }
  assert (Hpost : h (mkMrp ps next)
                    (Post (u_authhead self) (urljoin (u_url self) "/api/v1/preseed")
                       (preseed_doc self c))
                  = (mkMrp (ps ++ [created])%list (next + 1),
                     mkResponse 201 "CREATED" created)).
  { cbn. rewrite String.eqb_refl. reflexivity. }
  assert (Habs : Forall (named_other (u_name self)) ps).
  { eapply Forall_impl; [|exact Hps]. apply other_entry_named_other. }
  assert (Hf' : lookup_file (u_file self) (files w) = Some c) by exact Hf.
  assert (U1 := upload_new h self w _ _ "OK" ps c _ Hget1 Habs eq_refl Hf' Hnd Hpost).
  cbn [status_code body Z.eqb Pos.eqb] in U1.
  assert (Hr1 : r1 = MrpPreseed.upload_preseed h self w) by reflexivity.
  rewrite <- Hr1 in U1.
  set (w1 := after_request
               (after_request w (mkMrp ps next)
                  (Get (u_authhead self) (preseed_list_url (u_url self))))
               (mkMrp (ps ++ [created])%list (next + 1))
               (Post (u_authhead self) (urljoin (u_url self) "/api/v1/preseed")
                  (preseed_doc self c))) in U1.
  assert (Hw1 : snd r1 = w1) by (rewrite U1; reflexivity).
  assert (Hget2 : h (srv w1) (Get (u_authhead self) (preseed_list_url (u_url self)))
                  = (mkMrp (ps ++ [created])%list (next + 1),
                     mkResponse 200 "OK" (JList (ps ++ created :: [])))).
  { cbn. rewrite String.eqb_refl. reflexivity. }
  assert (Hn : getitem created "name" = Ret (JStr (u_name self))) by reflexivity.
  assert (Hi : getitem created "id" = Ret (JInt next)) by reflexivity.
  assert (Hvid : ne_minus1 (JInt next) = true).
  { simpl. destruct (next =? -1) eqn:E; [apply Z.eqb_eq in E; lia | reflexivity]. }
  assert (Hput : h (mkMrp (ps ++ [created])%list (next + 1))
                   (Put (u_authhead self) (preseed_url (u_url self) (JInt next))
                      (preseed_doc self c))
                 = (mkMrp (ps ++ [created])%list (next + 1),
                    mkResponse 200 "OK" created)).
  { unfold h, mrp_service. cbn [preseeds next_id u_url self new_uploader].
    unfold created, doc, preseed_doc.
    rewrite (put_preseed_fresh base name next _ ps Hps). reflexivity. }
  assert (Hf1 : lookup_file (u_file self) (files w1) = Some c) by exact Hf.
  assert (U2 := upload_existing h self w1 _ _ "OK" ps [] created (JInt next) c _
                  Hget2 Habs Hn Hi Hvid Hf1 Hnd Hput).
  cbn [status_code body Z.eqb Pos.eqb] in U2.
  unfold r2. rewrite Hw1, U2. rewrite U1.
  cbn [fst snd after_request log srv preseeds w1 w].
  rewrite !requests_of_app, <- !app_assoc.
  split; [reflexivity|]. split; [reflexivity|]. split; [reflexivity|].
  split; [|reflexivity].
  rewrite (named_others name next ps [created] Hps). cbn.
  rewrite String.eqb_refl. reflexivity.
Qed.

Definition other_preseed : json := JObj [("id", JInt 1); ("name", JStr "other")].

Lemma upsert_twice_one_create_witness :
  let fs := [("./p1.txt", "X")] in
  let self := new_uploader base_url token "./p1.txt" "p1" "preseed" "" false false in
  let h := mrp_service base_url in
  let r1 := MrpPreseed.upload_preseed h self (mkWorld (mkMrp [other_preseed] 2) 0 fs []) in
  let r2 := MrpPreseed.upload_preseed h self (snd r1) in
  let doc := preseed_doc self "X" in
  let created := with_id (JInt 2) doc in
  lookup_file "./p1.txt" fs = Some "X"
  /\ "./p1.txt" <> "/dev/null"
  /\ Forall (other_entry "p1" 2) [other_preseed]
  /\ 0 <= 2
  /\ (fst r1 = Ret created
      /\ fst r2 = Ret created
      /\ requests_of (log (snd r2))
         = (requests_of [] ++
            [Get token (preseed_list_url base_url);
             Post token (urljoin base_url "/api/v1/preseed") doc;
             Get token (preseed_list_url base_url);
             Put token (preseed_url base_url (JInt 2)) doc])%list
      /\ named "p1" (preseeds (srv (snd r2))) = [created]
      /\ getitem created "content" = Ret (JStr "X")).
Proof.
  intros fs self h r1 r2 doc created.
  assert (H1 : lookup_file "./p1.txt" fs = Some "X") by reflexivity.
  assert (H2 : "./p1.txt" <> "/dev/null") by (apply String.eqb_neq; reflexivity).
  assert (H3 : Forall (other_entry "p1" 2) [other_preseed]).
  { constructor; [|constructor].
    exists "other", 1. repeat split; [apply String.eqb_neq; reflexivity | lia]. }
  assert (H4 : 0 <= 2) by lia.
  do 4 (split; [assumption|]).
  exact (upsert_twice_one_create base_url token "./p1.txt" "p1" "preseed" "" false false
           "X" [other_preseed] 2 0 fs [] H1 H2 H3 H4).
Defined.

(** ** Further properties of the modules *)


Lemma machine_search_ok {S} (handle : S -> request -> S * response)
    (w : world S) (s1 : S) (url tok name ifc rs : string) (mid m : json) :
  handle (srv w) (Get tok (machine_query_url url name))
    = (s1, mkResponse 200 rs (JList [m])) ->
  IPGetter.get_machine_by_name handle (IPGetter.mk url tok name ifc mid) w
  = (Ret m, after_request w s1 (Get tok (machine_query_url url name))).
Proof.
  intros H. unfold IPGetter.get_machine_by_name.
  cbn [IPGetter.mrp_url IPGetter.mrp_token IPGetter.machine_name].
  unfold bind, send. rewrite H. reflexivity.
Qed.

(** [get_interfaces] on a machine whose ["id"] is falsy (0, [None], an
    empty string, ...): it raises "No ID found for machine <name>" after the
    search, without requesting the interface list. *)
Theorem get_interfaces_falsy_id {S} (handle : S -> request -> S * response)
    (w : world S) (s1 : S) (url tok name ifc rs : string) (mid m i : json)
    (Hsearch : handle (srv w) (Get tok (machine_query_url url name))
               = (s1, mkResponse 200 rs (JList [m])))
    (Hid : getitem m "id" = Ret i) (Hfalsy : truthy i = false) :
  IPGetter.get_interfaces handle (IPGetter.mk url tok name ifc mid) w
  = (Raise (ProvisionerError (MsgNoId name)),
     after_request w s1 (Get tok (machine_query_url url name))).
Proof.
  unfold IPGetter.get_interfaces. unfold bind at 1.
  rewrite (machine_search_ok handle w s1 url tok name ifc rs mid m Hsearch).
  unfold bind, lift. rewrite Hid, Hfalsy. reflexivity.
Qed.

Definition node_zero : json := JObj [("id", JInt 0); ("name", JStr "node1")].

Lemma get_interfaces_falsy_id_witness :
  let h := const_service (mkResponse 200 "OK" (JList [node_zero])) in
  h (srv world0) (Get token (machine_query_url base_url "node1"))
    = (tt, mkResponse 200 "OK" (JList [node_zero]))
  /\ getitem node_zero "id" = Ret (JInt 0) /\ truthy (JInt 0) = false
  /\ IPGetter.get_interfaces h (IPGetter.mk base_url token "node1" "eth1" (JInt (-1))) world0
     = (Raise (ProvisionerError (MsgNoId "node1")),
        after_request world0 tt (Get token (machine_query_url base_url "node1"))).
Proof.
  intros h.
  assert (H1 : h (srv world0) (Get token (machine_query_url base_url "node1"))
               = (tt, mkResponse 200 "OK" (JList [node_zero]))) by reflexivity.
  assert (H2 : getitem node_zero "id" = Ret (JInt 0)) by reflexivity.
  assert (H3 : truthy (JInt 0) = false) by reflexivity.
  do 3 (split; [assumption|]).
  exact (get_interfaces_falsy_id h world0 tt base_url token "node1" "eth1" "OK"
           (JInt (-1)) node_zero (JInt 0) H1 H2 H3).
Defined.

(** The URL of the interface list of the machine with id [i]. *)
Definition interface_url (base : string) (i : json) : string :=
  urljoin_py2 base ("/api/v1/machine/" ++ py_str i ++ "/interface").

(** [get_interfaces] when the interface list is empty: it raises
    'Error no machine with id "<id>"' after its two GET requests. *)
Theorem get_interfaces_empty_list {S} (handle : S -> request -> S * response)
    (w : world S) (s1 s2 : S) (url tok name ifc rs1 rs2 : string) (mid m i : json)
    (Hsearch : handle (srv w) (Get tok (machine_query_url url name))
               = (s1, mkResponse 200 rs1 (JList [m])))
    (Hid : getitem m "id" = Ret i) (Htruthy : truthy i = true)
    (Hifaces : handle s1 (Get tok (interface_url url i))
               = (s2, mkResponse 200 rs2 (JList []))) :
  IPGetter.get_interfaces handle (IPGetter.mk url tok name ifc mid) w
  = (Raise (ProvisionerError (MsgNoMachineId i)),
     after_request (after_request w s1 (Get tok (machine_query_url url name)))
       s2 (Get tok (interface_url url i))).
Proof.
  unfold IPGetter.get_interfaces. unfold bind at 1.
  rewrite (machine_search_ok handle w s1 url tok name ifc rs1 mid m Hsearch).
  unfold bind at 1, lift. rewrite Hid, Htruthy.
  cbn [IPGetter.mrp_url IPGetter.mrp_token IPGetter.machine_name IPGetter.machine_id].
  unfold bind, send. cbn [after_request srv clock files log].
  unfold interface_url in Hifaces. rewrite Hifaces. reflexivity.
Qed.

(** [get_interfaces] when the interface list cannot be fetched: it raises
    "Error fetching <url>, HTTP ..." where <url> is the base URL of the
    service, not the URL that was requested. *)
Theorem get_interfaces_fetch_error {S} (handle : S -> request -> S * response)
    (w : world S) (s1 s2 : S) (url tok name ifc rs1 : string) (mid m i : json)
    (r2 : response)
    (Hsearch : handle (srv w) (Get tok (machine_query_url url name))
               = (s1, mkResponse 200 rs1 (JList [m])))
    (Hid : getitem m "id" = Ret i) (Htruthy : truthy i = true)
    (Hifaces : handle s1 (Get tok (interface_url url i)) = (s2, r2))
    (Hst : status_code r2 <> 200) :
  IPGetter.get_interfaces handle (IPGetter.mk url tok name ifc mid) w
  = (Raise (ProvisionerError (MsgFetch url (status_code r2) (reason r2))),
     after_request (after_request w s1 (Get tok (machine_query_url url name)))
       s2 (Get tok (interface_url url i))).
Proof.
  unfold IPGetter.get_interfaces. unfold bind at 1.
  rewrite (machine_search_ok handle w s1 url tok name ifc rs1 mid m Hsearch).
  unfold bind at 1, lift. rewrite Hid, Htruthy.
  cbn [IPGetter.mrp_url IPGetter.mrp_token IPGetter.machine_name IPGetter.machine_id].
  unfold bind, send. cbn [after_request srv clock files log].
  unfold interface_url in Hifaces. rewrite Hifaces.
  apply Z.eqb_neq in Hst. rewrite Hst. reflexivity.
Qed.

Lemma get_interfaces_empty_list_witness :
  let h := node1_service [] in
  let q := Get token (machine_query_url base_url "node1") in
  h (srv world0) q = (tt, mkResponse 200 "OK" (JList [node1]))
  /\ getitem node1 "id" = Ret (JInt 7) /\ truthy (JInt 7) = true
  /\ h tt (Get token (interface_url base_url (JInt 7))) = (tt, mkResponse 200 "OK" (JList []))
  /\ IPGetter.get_interfaces h (IPGetter.mk base_url token "node1" "eth1" (JInt (-1))) world0
     = (Raise (ProvisionerError (MsgNoMachineId (JInt 7))),
        after_request (after_request world0 tt q) tt
          (Get token (interface_url base_url (JInt 7)))).
Proof.
  intros h q.
  assert (H1 : h (srv world0) q = (tt, mkResponse 200 "OK" (JList [node1]))) by reflexivity.
  assert (H2 : getitem node1 "id" = Ret (JInt 7)) by reflexivity.
  assert (H3 : truthy (JInt 7) = true) by reflexivity.
  assert (H4 : h tt (Get token (interface_url base_url (JInt 7)))
               = (tt, mkResponse 200 "OK" (JList []))) by reflexivity.
  do 4 (split; [assumption|]).
  exact (get_interfaces_empty_list h world0 tt tt base_url token "node1" "eth1" "OK" "OK"
           (JInt (-1)) node1 (JInt 7) H1 H2 H3 H4).
Defined.

Lemma get_interfaces_fetch_error_witness :
  let h := table_service
             [(machine_query_url base_url "node1", mkResponse 200 "OK" (JList [node1]))] in
  let q := Get token (machine_query_url base_url "node1") in
  h (srv world0) q = (tt, mkResponse 200 "OK" (JList [node1]))
  /\ getitem node1 "id" = Ret (JInt 7) /\ truthy (JInt 7) = true
  /\ h tt (Get token (interface_url base_url (JInt 7))) = (tt, not_found)
  /\ status_code not_found <> 200
  /\ IPGetter.get_interfaces h (IPGetter.mk base_url token "node1" "eth1" (JInt (-1))) world0
     = (Raise (ProvisionerError (MsgFetch base_url 404 "NOT FOUND")),
        after_request (after_request world0 tt q) tt
          (Get token (interface_url base_url (JInt 7)))).
Proof.
  intros h q.
  assert (H1 : h (srv world0) q = (tt, mkResponse 200 "OK" (JList [node1]))) by reflexivity.
  assert (H2 : getitem node1 "id" = Ret (JInt 7)) by reflexivity.
  assert (H3 : truthy (JInt 7) = true) by reflexivity.
  assert (H4 : h tt (Get token (interface_url base_url (JInt 7))) = (tt, not_found))
    by reflexivity.
  assert (H5 : status_code not_found <> 200) by discriminate.
  do 5 (split; [assumption|]).
  exact (get_interfaces_fetch_error h world0 tt tt base_url token "node1" "eth1" "OK"
           (JInt (-1)) node1 (JInt 7) not_found H1 H2 H3 H4 H5).
Defined.

(** Both resolvers on a search answered with a status other than 200:
    they raise "Error fetching <search url>, HTTP <status> <reason>" without
    looking at the body. *)
Theorem resolve_fetch_error {S} (handle : S -> request -> S * response)
    (w : world S) (s1 : S) (url tok name ifc : string) (mid : json) (r : response)
    (Hsearch : handle (srv w) (Get tok (machine_query_url url name)) = (s1, r))
    (Hst : status_code r <> 200) :
  IPGetter.get_machine_by_name handle (IPGetter.mk url tok name ifc mid) w
  = (Raise (ProvisionerError
              (MsgFetch (machine_query_url url name) (status_code r) (reason r))),
     after_request w s1 (Get tok (machine_query_url url name)))
  /\ NetbootSwitcher.get_machine_by_name handle url tok name w
     = (Raise (ProvisionerError
                 (MsgFetch (machine_query_url url name) (status_code r) (reason r))),
        after_request w s1 (Get tok (machine_query_url url name))).
Proof.
  unfold IPGetter.get_machine_by_name, NetbootSwitcher.get_machine_by_name.
  cbn [IPGetter.mrp_url IPGetter.mrp_token IPGetter.machine_name].
  unfold bind, send. rewrite Hsearch. apply Z.eqb_neq in Hst. rewrite Hst.
  split; reflexivity.
Qed.

Lemma resolve_fetch_error_witness :
  let h := const_service not_found in
  h (srv world0) (Get token (machine_query_url base_url "node1")) = (tt, not_found)
  /\ status_code not_found <> 200
  /\ IPGetter.get_machine_by_name h (IPGetter.mk base_url token "node1" "eth1" (JInt (-1))) world0
     = (Raise (ProvisionerError (MsgFetch (machine_query_url base_url "node1") 404 "NOT FOUND")),
        after_request world0 tt (Get token (machine_query_url base_url "node1")))
  /\ NetbootSwitcher.get_machine_by_name h base_url token "node1" world0
     = (Raise (ProvisionerError (MsgFetch (machine_query_url base_url "node1") 404 "NOT FOUND")),
        after_request world0 tt (Get token (machine_query_url base_url "node1"))).
Proof.
  intros h.
  assert (H1 : h (srv world0) (Get token (machine_query_url base_url "node1"))
               = (tt, not_found)) by reflexivity.
  assert (H2 : status_code not_found <> 200) by discriminate.
  do 2 (split; [assumption|]).
  exact (resolve_fetch_error h world0 tt base_url token "node1" "eth1" (JInt (-1))
           not_found H1 H2).
Defined.

Lemma hex_digit_safe (n : nat) : quote_safe (hex_digit n) = true.
Proof. do 15 (destruct n as [|n]; [reflexivity|]). reflexivity. Qed.

(** [quote] only emits unreserved characters, ['/'] and ['%']: the
    double quote that closes the name in the search filter
    [(= name "...")], the closing parenthesis, the space and ['&'] never
    appear in a quoted name. *)
Theorem quote_output_safe (s : string) :
  (forall c, In c (list_ascii_of_string (quote s)) -> quote_safe c = true \/ c = "%"%char)
  /\ ~ In (ascii_of_nat 34) (list_ascii_of_string (quote s))
  /\ ~ In ")"%char (list_ascii_of_string (quote s))
  /\ ~ In " "%char (list_ascii_of_string (quote s))
  /\ ~ In "&"%char (list_ascii_of_string (quote s)).
Proof.
  assert (Hall : forall c, In c (list_ascii_of_string (quote s)) ->
                           quote_safe c = true \/ c = "%"%char).
  { induction s as [|a s IH]; simpl; [contradiction|].
    destruct (quote_safe a) eqn:Ha; simpl.
    - intros c [<-|Hc]; auto.
    - intros c [<-|[<-|[<-|Hc]]]; auto; left; apply hex_digit_safe. }
  split; [exact Hall|].
  repeat split; intros Hin; destruct (Hall _ Hin) as [Hs|Hs];
    try discriminate Hs; vm_compute in Hs; discriminate Hs.
Qed.

Lemma assoc_set_same (k : string) (x : json) (kvs : list (string * json)) :
  assoc k (assoc_set k x kvs) = Some x.
Proof.
  induction kvs as [|[k' v] r IH]; simpl; [rewrite String.eqb_refl; reflexivity|].
  destruct (String.eqb k' k) eqn:E; simpl; rewrite ?E; [reflexivity|exact IH].
Qed.

Lemma assoc_set_other (k k2 : string) (x : json) (kvs : list (string * json)) :
  k2 <> k -> assoc k2 (assoc_set k x kvs) = assoc k2 kvs.
Proof.
  intros Hne. induction kvs as [|[k' v] r IH]; simpl.
  - apply String.eqb_neq in Hne. rewrite String.eqb_sym, Hne. reflexivity.
  - destruct (String.eqb k' k) eqn:E; simpl.
    + apply String.eqb_eq in E. subst k'.
      apply String.eqb_neq in Hne. rewrite String.eqb_sym, Hne. reflexivity.
    + rewrite IH. reflexivity.
Qed.

(** The machine document [switch_netboot_flag] sends. *)
Definition netboot_off (kvs : list (string * json)) : json :=
  JObj (assoc_set "netboot_enabled" (JBool false) kvs).

Definition machine_url (base : string) (i : json) : string :=
  urljoin base ("/api/v1/machine/" ++ py_str i).

(** [switch_netboot_flag] on a machine dict with an ["id"]: it sends one
    PUT of the machine with ["netboot_enabled"] set to [False] and every
    other field unchanged; an answer of 200 or 202 returns the object with
    the new document and the decoded answer, any other status raises
    "Error PUTing <url>, HTTP ...". *)
Theorem switch_netboot_flag_put {S} (handle : S -> request -> S * response)
    (w : world S) (s' : S) (u a : string) (kvs : list (string * json)) (vid : json)
    (r : response)
    (Hid : assoc "id" kvs = Some vid)
    (Hput : handle (srv w) (Put a (machine_url u vid) (netboot_off kvs)) = (s', r)) :
  NetbootSwitcher.switch_netboot_flag handle (NetbootSwitcher.mk u a (JObj kvs)) w
  = (if (status_code r =? 200) || (status_code r =? 202)
     then Ret (NetbootSwitcher.mk u a (netboot_off kvs), body r)
     else Raise (ProvisionerError (MsgPutMachine (machine_url u vid) (status_code r) (reason r))),
     after_request w s' (Put a (machine_url u vid) (netboot_off kvs)))
  /\ getitem (netboot_off kvs) "netboot_enabled" = Ret (JBool false)
  /\ (forall k, k <> "netboot_enabled" -> getitem (netboot_off kvs) k = getitem (JObj kvs) k).
Proof.
  split; [|split].
  - unfold NetbootSwitcher.switch_netboot_flag, bind, lift, send.
    cbn [NetbootSwitcher.machine_json NetbootSwitcher.url NetbootSwitcher.auth getitem].
    rewrite Hid. cbn [setitem NetbootSwitcher.machine_json NetbootSwitcher.url
                      NetbootSwitcher.auth].
    unfold machine_url, netboot_off in Hput. rewrite Hput.
    destruct ((status_code r =? 200) || (status_code r =? 202)); reflexivity.
  - unfold netboot_off, getitem. rewrite assoc_set_same. reflexivity.
  - intros k Hk. unfold netboot_off, getitem. rewrite assoc_set_other by exact Hk.
    reflexivity.
Qed.

Definition node1_kvs : list (string * json) :=
  [("id", JInt 7); ("name", JStr "node1"); ("netboot_enabled", JBool true)].

Lemma switch_netboot_flag_put_witness :
  let h := const_service (mkResponse 202 "ACCEPTED" (JObj [])) in
  let rq := Put token (machine_url base_url (JInt 7)) (netboot_off node1_kvs) in
  assoc "id" node1_kvs = Some (JInt 7)
  /\ h (srv world0) rq = (tt, mkResponse 202 "ACCEPTED" (JObj []))
  /\ (NetbootSwitcher.switch_netboot_flag h (NetbootSwitcher.mk base_url token (JObj node1_kvs)) world0
      = (if (202 =? 200) || (202 =? 202)
         then Ret (NetbootSwitcher.mk base_url token (netboot_off node1_kvs), JObj [])
         else Raise (ProvisionerError
                       (MsgPutMachine (machine_url base_url (JInt 7)) 202 "ACCEPTED")),
         after_request world0 tt rq)
      /\ getitem (netboot_off node1_kvs) "netboot_enabled" = Ret (JBool false)
      /\ (forall k, k <> "netboot_enabled" ->
                    getitem (netboot_off node1_kvs) k = getitem (JObj node1_kvs) k)).
Proof.
  intros h rq.
  assert (H1 : assoc "id" node1_kvs = Some (JInt 7)) by reflexivity.
  assert (H2 : h (srv world0) rq = (tt, mkResponse 202 "ACCEPTED" (JObj []))) by reflexivity.
  do 2 (split; [assumption|]).
  exact (switch_netboot_flag_put h world0 tt base_url token node1_kvs (JInt 7)
           (mkResponse 202 "ACCEPTED" (JObj [])) H1 H2).
Defined.

(** A search answer that does not resolve to one machine. *)
Definition unresolved (r : response) : Prop :=
  status_code r <> 200 \/ exists l, body r = JList l /\ length l <> 1%nat.

(** The message of the [ProvisionerError] that [get_machine_by_name]
    raises on such a response. *)
Definition search_error (url name : string) (r : response) : msg :=
  if negb (status_code r =? 200)
  then MsgFetch (machine_query_url url name) (status_code r) (reason r)
  else match body r with
       | JList [] => MsgNoAssigned name
       | _ => MsgMoreThanOne name (body r)
       end.

Lemma netboot_init_unresolved {S} (handle : S -> request -> S * response)
    (w : world S) (s1 : S) (url tok name : string) (r : response) :
  handle (srv w) (Get tok (machine_query_url url name)) = (s1, r) ->
  unresolved r ->
  NetbootSwitcher.init handle url tok name w
  = (Raise (ProvisionerError (search_error url name r)),
     after_request w s1 (Get tok (machine_query_url url name))).
Proof.
  intros H Hbad.
  unfold NetbootSwitcher.init, NetbootSwitcher.get_machine_by_name, search_error.
  unfold bind, send. rewrite H.
  destruct (status_code r =? 200) eqn:Est; cbn [negb].
  - destruct Hbad as [Hst|[l [Hb Hl]]]; [apply Z.eqb_eq in Est; contradiction|].
    rewrite Hb. unfold lift, py_len.
    destruct l as [|x [|y l]]; [|simpl in Hl; congruence|].
    + reflexivity.
    + cbn [length]. set (n := Z.of_nat _).
      assert (Hn : n > 1) by (subst n; lia).
      destruct (n =? 0) eqn:E0; [apply Z.eqb_eq in E0; lia|].
      destruct (n >? 1) eqn:E1; [reflexivity|].
      rewrite Z.gtb_ltb, Z.ltb_ge in E1; lia.
  - reflexivity.
Qed.


(** [run_module] of the netboot switch when the first lookup (made outside
    the [try]) does not resolve to one machine: the [ProvisionerError]
    escapes [run_module] (no [fail_json]), after a single GET, with no sleep
    and no PUT. *)
Theorem netboot_first_lookup_uncaught {S} (handle : S -> request -> S * response)
    (w : world S) (s1 : S) (name url tok timeout : string) (r1 : response)
    (Hget1 : handle (srv w) (Get tok (machine_query_url url name)) = (s1, r1))
    (Hbad : unresolved r1) :
  exists m, NetbootSwitcher.run_module handle name url tok timeout w
            = (Raise (ProvisionerError m),
               after_request w s1 (Get tok (machine_query_url url name))).
Proof.
  pose proof (netboot_init_unresolved handle w s1 url tok name r1 Hget1 Hbad) as Hm.
  exists (search_error url name r1).
  unfold NetbootSwitcher.run_module, bind at 1. rewrite Hm. reflexivity.
Qed.

Lemma netboot_first_lookup_uncaught_witness :
  let h := const_service (mkResponse 200 "OK" (JList [])) in
  h (srv world0) (Get token (machine_query_url base_url "node1"))
    = (tt, mkResponse 200 "OK" (JList []))
  /\ unresolved (mkResponse 200 "OK" (JList []))
  /\ exists m, NetbootSwitcher.run_module h "node1" base_url token "5" world0
               = (Raise (ProvisionerError m),
                  after_request world0 tt (Get token (machine_query_url base_url "node1"))).
Proof.
  intros h.
  assert (H1 : h (srv world0) (Get token (machine_query_url base_url "node1"))
               = (tt, mkResponse 200 "OK" (JList []))) by reflexivity.
  assert (H2 : unresolved (mkResponse 200 "OK" (JList [])))
    by (right; exists []; split; [reflexivity|discriminate]).
  do 2 (split; [assumption|]).
  exact (netboot_first_lookup_uncaught h world0 tt "node1" base_url token "5"
           (mkResponse 200 "OK" (JList [])) H1 H2).
Defined.

(** [run_module] of the netboot switch when the first lookup resolves and
    the second (inside the [try]) does not: the module fails with the
    message of the second lookup's error ("Error fetching", "No machine"
    or "More than one" as [search_error] picks it) after the two GETs,
    with no sleep and no PUT. *)
Theorem netboot_second_lookup_fails {S} (handle : S -> request -> S * response)
    (w : world S) (s1 s2 : S) (name url tok timeout rs1 : string) (m1 : json)
    (r2 : response)
    (Hget1 : handle (srv w) (Get tok (machine_query_url url name))
             = (s1, mkResponse 200 rs1 (JList [m1])))
    (Hget2 : handle s1 (Get tok (machine_query_url url name)) = (s2, r2))
    (Hbad : unresolved r2) :
  NetbootSwitcher.run_module handle name url tok timeout w
  = (Ret (ModuleFail (JStr (render (search_error url name r2)))),
     after_request (after_request w s1 (Get tok (machine_query_url url name)))
       s2 (Get tok (machine_query_url url name))).
Proof.
  assert (Hget2' : handle (srv (after_request w s1 (Get tok (machine_query_url url name))))
                     (Get tok (machine_query_url url name)) = (s2, r2)) by exact Hget2.
  pose proof (netboot_init_unresolved handle _ s2 url tok name r2 Hget2' Hbad) as Hm.
  unfold NetbootSwitcher.run_module. unfold bind at 1.
  rewrite (netboot_init_ok handle w s1 url tok name rs1 m1 Hget1).
  unfold bind at 1, try_prov. unfold bind at 1. rewrite Hm. reflexivity.
Qed.

Lemma netboot_second_lookup_fails_witness :
  let q := Get token (machine_query_url base_url "node1") in
  let h := fun (n : nat) (rq : request) =>
             match n with
             | O => (1%nat, mkResponse 200 "OK" (JList [node1]))
             | _ => (2%nat, mkResponse 200 "OK" (JList [node1; node1]))
             end in
  let w := mkWorld O 0 [] [] in
  h (srv w) q = (1%nat, mkResponse 200 "OK" (JList [node1]))
  /\ h 1%nat q = (2%nat, mkResponse 200 "OK" (JList [node1; node1]))
  /\ unresolved (mkResponse 200 "OK" (JList [node1; node1]))
  /\ NetbootSwitcher.run_module h "node1" base_url token "5" w
     = (Ret (ModuleFail (JStr (render (search_error base_url "node1"
                                         (mkResponse 200 "OK" (JList [node1; node1])))))),
        after_request (after_request w 1%nat q) 2%nat q).
Proof.
  intros q h w.
  assert (H1 : h (srv w) q = (1%nat, mkResponse 200 "OK" (JList [node1]))) by reflexivity.
  assert (H2 : h 1%nat q = (2%nat, mkResponse 200 "OK" (JList [node1; node1])))
    by reflexivity.
  assert (H3 : unresolved (mkResponse 200 "OK" (JList [node1; node1])))
    by (right; eexists; split; [reflexivity|discriminate]).
  do 3 (split; [assumption|]).
  exact (netboot_second_lookup_fails h w 1%nat 2%nat "node1" base_url token "5" "OK"
           node1 (mkResponse 200 "OK" (JList [node1; node1])) H1 H2 H3).
Defined.

(** [run_module] of the netboot switch, both lookups resolving, with a
    timeout that cannot be slept: a string that [int()] rejects, or a
    negative number above -9223372037, raises [ValueError]; a number
    whose nanoseconds do not fit in 64 bits ([d <= -9223372037] or
    [d >= 9223372037]) raises [OverflowError]. The exception escapes
    [run_module] (only [ProvisionerError] is caught) after the two GETs,
    with no sleep and no PUT. *)
Theorem netboot_bad_timeout {S} (handle : S -> request -> S * response)
    (w : world S) (s1 s2 : S) (name url tok timeout rs1 rs2 : string) (m1 m2 : json)
    (Hget1 : handle (srv w) (Get tok (machine_query_url url name))
             = (s1, mkResponse 200 rs1 (JList [m1])))
    (Hget2 : handle s1 (Get tok (machine_query_url url name))
             = (s2, mkResponse 200 rs2 (JList [m2]))) :
  let q := Get tok (machine_query_url url name) in
  let res := NetbootSwitcher.run_module handle name url tok timeout w in
  (py_int timeout = Raise ValueError ->
   res = (Raise ValueError, after_request (after_request w s1 q) s2 q))
  /\ (forall d, py_int timeout = Ret d -> -9223372037 < d < 0 ->
      res = (Raise ValueError, after_request (after_request w s1 q) s2 q))
  /\ (forall d, py_int timeout = Ret d -> d <= -9223372037 \/ 9223372037 <= d ->
      res = (Raise OverflowError, after_request (after_request w s1 q) s2 q)).
Proof.
  assert (Hget2' : handle (srv (after_request w s1 (Get tok (machine_query_url url name))))
                     (Get tok (machine_query_url url name))
                   = (s2, mkResponse 200 rs2 (JList [m2]))) by exact Hget2.
  cbv zeta.
  split; [|split]; [intros Hv|intros d Hd Hdr|intros d Hd Hdr];
    unfold NetbootSwitcher.run_module; unfold bind at 1;
    rewrite (netboot_init_ok handle w s1 url tok name rs1 m1 Hget1);
    unfold bind at 1, try_prov; unfold bind at 1;
    rewrite (netboot_init_ok handle _ s2 url tok name rs2 m2 Hget2');
    unfold NetbootSwitcher.do_timeout, bind, lift, sleep.
  - rewrite Hv. reflexivity.
  - rewrite Hd.
    assert (Ho : (d * 1000000000 >? 9223372036854775807)
                 || (d * 1000000000 <? -9223372036854775808) = false).
    { apply orb_false_iff. rewrite Z.gtb_ltb. split; apply Z.ltb_ge; lia. }
    assert (Hn : (d <? 0) = true) by (apply Z.ltb_lt; lia).
    rewrite Ho, Hn. reflexivity.
  - rewrite Hd.
    assert (Ho : (d * 1000000000 >? 9223372036854775807)
                 || (d * 1000000000 <? -9223372036854775808) = true).
    { apply orb_true_iff. rewrite Z.gtb_ltb.
      destruct Hdr; [right|left]; apply Z.ltb_lt; lia. }
    rewrite Ho. reflexivity.
Qed.

Lemma netboot_bad_timeout_witness :
  let h := node1_service [] in
  let q := Get token (machine_query_url base_url "node1") in
  h (srv world0) q = (tt, mkResponse 200 "OK" (JList [node1]))
  /\ h tt q = (tt, mkResponse 200 "OK" (JList [node1]))
  /\ (py_int "5s" = Raise ValueError ->
      NetbootSwitcher.run_module h "node1" base_url token "5s" world0
      = (Raise ValueError, after_request (after_request world0 tt q) tt q))
  /\ (forall d, py_int "5s" = Ret d -> -9223372037 < d < 0 ->
      NetbootSwitcher.run_module h "node1" base_url token "5s" world0
      = (Raise ValueError, after_request (after_request world0 tt q) tt q))
  /\ (forall d, py_int "5s" = Ret d -> d <= -9223372037 \/ 9223372037 <= d ->
      NetbootSwitcher.run_module h "node1" base_url token "5s" world0
      = (Raise OverflowError, after_request (after_request world0 tt q) tt q)).
Proof.
  intros h q.
  assert (H1 : h (srv world0) q = (tt, mkResponse 200 "OK" (JList [node1]))) by reflexivity.
  assert (H2 : h tt q = (tt, mkResponse 200 "OK" (JList [node1]))) by reflexivity.
  do 2 (split; [assumption|]).
  exact (netboot_bad_timeout h world0 tt tt "node1" base_url token "5s" "OK" "OK"
           node1 node1 H1 H2).
Defined.

Lemma check_for_existence_fail {S} (handle : S -> request -> S * response)
    (self : uploader) (w : world S) (s1 : S) (r : response) :
  handle (srv w) (Get (u_authhead self) (preseed_list_url (u_url self))) = (s1, r) ->
  status_code r <> 200 ->
  check_for_existence handle self w
  = (Raise (ProvisionerError
              (MsgFetch (preseed_list_url (u_url self)) (status_code r) (reason r))),
     after_request w s1 (Get (u_authhead self) (preseed_list_url (u_url self)))).
Proof.
  intros H Hst. unfold check_for_existence, bind, send. rewrite H.
  apply Z.eqb_neq in Hst. rewrite Hst. reflexivity.
Qed.

(** The uploader of [mr_provisioner_preseed.py] when the preseed listing
    answers with a status other than 200: [upload_preseed] returns the
    error dict with the "Error fetching" message after the one GET, and
    [run_module] fails with that message. *)
Theorem preseed_listing_error {S} (handle : S -> request -> S * response)
    (self : uploader) (w : world S) (s1 : S) (r : response)
    (Hget : handle (srv w) (Get (u_authhead self) (preseed_list_url (u_url self))) = (s1, r))
    (Hst : status_code r <> 200) :
  MrpPreseed.upload_preseed handle self w
  = (Ret (error_dict (render (MsgFetch (preseed_list_url (u_url self))
                                (status_code r) (reason r)))),
     after_request w s1 (Get (u_authhead self) (preseed_list_url (u_url self))))
  /\ MrpPreseed.run_module handle self w
     = (Ret (ModuleFail (JStr (render (MsgFetch (preseed_list_url (u_url self))
                                         (status_code r) (reason r))))),
        after_request w s1 (Get (u_authhead self) (preseed_list_url (u_url self)))).
Proof.
  assert (Hu : MrpPreseed.upload_preseed handle self w
               = (Ret (error_dict (render (MsgFetch (preseed_list_url (u_url self))
                                             (status_code r) (reason r)))),
                  after_request w s1 (Get (u_authhead self) (preseed_list_url (u_url self))))).
  { unfold MrpPreseed.upload_preseed, bind at 1, try_prov.
    rewrite (check_for_existence_fail handle self w s1 r Hget Hst). reflexivity. }
  split; [exact Hu|].
  unfold MrpPreseed.run_module, bind at 1, try_prov. rewrite Hu. reflexivity.
Qed.

Lemma preseed_listing_error_witness :
  let self := p1_uploader "./p1.txt" in
  broken_listing_service (srv files_p1)
    (Get (u_authhead self) (preseed_list_url (u_url self)))
    = (tt, mkResponse 500 "INTERNAL SERVER ERROR" (JObj []))
  /\ status_code (mkResponse 500 "INTERNAL SERVER ERROR" (JObj [])) <> 200
  /\ MrpPreseed.upload_preseed broken_listing_service self files_p1
     = (Ret (error_dict (render (MsgFetch (preseed_list_url (u_url self))
                                   500 "INTERNAL SERVER ERROR"))),
        after_request files_p1 tt (Get (u_authhead self) (preseed_list_url (u_url self))))
  /\ MrpPreseed.run_module broken_listing_service self files_p1
     = (Ret (ModuleFail (JStr (render (MsgFetch (preseed_list_url (u_url self))
                                          500 "INTERNAL SERVER ERROR")))),
        after_request files_p1 tt (Get (u_authhead self) (preseed_list_url (u_url self)))).
Proof.
  intros self.
  assert (H1 : broken_listing_service (srv files_p1)
                 (Get (u_authhead self) (preseed_list_url (u_url self)))
               = (tt, mkResponse 500 "INTERNAL SERVER ERROR" (JObj []))) by reflexivity.
  assert (H2 : status_code (mkResponse 500 "INTERNAL SERVER ERROR" (JObj [])) <> 200)
    by discriminate.
  do 2 (split; [assumption|]).
  exact (preseed_listing_error broken_listing_service self files_p1 tt
           (mkResponse 500 "INTERNAL SERVER ERROR" (JObj [])) H1 H2).
Defined.

Lemma scan_preseeds_shape (self self' : uploader) (l : list json) (b : bool) :
  scan_preseeds self l = Ret (self', b) ->
  self' = self \/ exists i, self' = set_id self i.
Proof.
  induction l as [|p l IH]; simpl.
  - intros H. injection H as <- _. left; reflexivity.
  - destruct (getitem p "name") as [n|e]; simpl; [|discriminate].
    destruct (eq_str n (u_name self)); [|exact IH].
    destruct (getitem p "id") as [i|e]; simpl; [|discriminate].
    intros H. injection H as <- _. right; exists i; reflexivity.
Qed.

Lemma scan_preseeds_file (self self' : uploader) (l : list json) (b : bool) :
  scan_preseeds self l = Ret (self', b) ->
  u_file self' = u_file self /\ u_url self' = u_url self
  /\ u_authhead self' = u_authhead self /\ u_name self' = u_name self.
Proof.
  intros H. destruct (scan_preseeds_shape self self' l b H) as [->|[i ->]];
    repeat split.
Qed.

Lemma read_file_missing {S} (p : string) (w : world S) :
  lookup_file p (files w) = None -> read_file p w = (Raise FileNotFoundError, w).
Proof. intros H. unfold read_file. rewrite H. reflexivity. Qed.

(** A preseed file that does not exist, under a listing that can be
    scanned: both uploaders raise [FileNotFoundError] after the listing
    GET, without any POST or PUT, whether or not the preseed is listed;
    the error is not a [ProvisionerError], so both [run_module]s let it
    escape. (For [mr_provisioner_preseed.py] the file is not
    ["/dev/null"], which that module does not open.) *)
Theorem upload_missing_file {S} (handle : S -> request -> S * response)
    (self self' : uploader) (w : world S) (s1 : S) (rs : string) (l : list json) (b : bool)
    (Hget : handle (srv w) (Get (u_authhead self) (preseed_list_url (u_url self)))
            = (s1, mkResponse 200 rs (JList l)))
    (Hscan : scan_preseeds self l = Ret (self', b))
    (Hnf : lookup_file (u_file self) (files w) = None)
    (Hnd : u_file self <> "/dev/null") :
  MrpPreseed.upload_preseed handle self w
  = (Raise FileNotFoundError,
     after_request w s1 (Get (u_authhead self) (preseed_list_url (u_url self))))
  /\ PreseedUploadModule.upload_preseed handle self w
     = (Raise FileNotFoundError,
        after_request w s1 (Get (u_authhead self) (preseed_list_url (u_url self))))
  /\ fst (MrpPreseed.run_module handle self w) = Raise FileNotFoundError
  /\ fst (PreseedUploadModule.run_module handle self w) = Raise FileNotFoundError.
Proof.
  destruct (scan_preseeds_file self self' l b Hscan) as [Hf _].
  set (w1 := after_request w s1 (Get (u_authhead self) (preseed_list_url (u_url self)))).
  assert (Hnf1 : read_file (u_file self') w1 = (Raise FileNotFoundError, w1))
    by (apply read_file_missing; rewrite Hf; exact Hnf).
  assert (Hc : check_for_existence handle self w = (Ret (self', b), w1))
    by exact (check_for_existence_ok handle self w s1 rs l _ Hget Hscan).
  assert (Hnd' : String.eqb (u_file self') "/dev/null" = false)
    by (apply String.eqb_neq; rewrite Hf; exact Hnd).
  assert (HB : MrpPreseed.upload_preseed handle self w = (Raise FileNotFoundError, w1)).
  { unfold MrpPreseed.upload_preseed. unfold bind at 1, try_prov. rewrite Hc.
    cbn iota beta. rewrite Hnd'. rewrite andb_false_r. cbn [negb andb].
    rewrite andb_true_r.
    destruct (ne_minus1 (u_id self')) eqn:Hid.
    - unfold try_prov, MrpPreseed.modify_preseed. rewrite Hid. cbn [negb].
      unfold get_preseed_from_file, bind. rewrite Hnf1. reflexivity.
    - unfold get_preseed_from_file, bind. rewrite Hnf1. reflexivity. }
  assert (HA : PreseedUploadModule.upload_preseed handle self w
               = (Raise FileNotFoundError, w1)).
  { unfold PreseedUploadModule.upload_preseed. unfold bind at 1 2, try_prov. rewrite Hc.
    unfold ret. cbn iota beta.
    destruct (ne_minus1 (u_id self')) eqn:Hid.
    - unfold PreseedUploadModule.modify_preseed. rewrite Hid. cbn [negb].
      unfold get_preseed_from_file, bind. rewrite Hnf1. reflexivity.
    - unfold get_preseed_from_file, bind. rewrite Hnf1. reflexivity. }
  split; [exact HB|]. split; [exact HA|]. split.
  - rewrite (run_module_upload handle self w w1 _ HB). reflexivity.
  - unfold PreseedUploadModule.run_module, bind at 1, try_prov. rewrite HA. reflexivity.
Qed.

Lemma upload_missing_file_witness :
  let self := p1_uploader "./p1.txt" in
  let h := listing_service [p1_entry] in
  let w1 := after_request world0 tt (Get (u_authhead self) (preseed_list_url (u_url self))) in
  h (srv world0) (Get (u_authhead self) (preseed_list_url (u_url self)))
    = (tt, mkResponse 200 "OK" (JList [p1_entry]))
  /\ scan_preseeds self [p1_entry] = Ret (set_id self (JInt 3), true)
  /\ lookup_file (u_file self) (files world0) = None
  /\ u_file self <> "/dev/null"
  /\ MrpPreseed.upload_preseed h self world0 = (Raise FileNotFoundError, w1)
  /\ PreseedUploadModule.upload_preseed h self world0 = (Raise FileNotFoundError, w1)
  /\ fst (MrpPreseed.run_module h self world0) = Raise FileNotFoundError
  /\ fst (PreseedUploadModule.run_module h self world0) = Raise FileNotFoundError.
Proof.
  intros self h w1.
  assert (H1 : h (srv world0) (Get (u_authhead self) (preseed_list_url (u_url self)))
               = (tt, mkResponse 200 "OK" (JList [p1_entry]))) by reflexivity.
  assert (H2 : scan_preseeds self [p1_entry] = Ret (set_id self (JInt 3), true))
    by reflexivity.
  assert (H3 : lookup_file (u_file self) (files world0) = None) by reflexivity.
  assert (H4 : u_file self <> "/dev/null") by (apply String.eqb_neq; reflexivity).
  do 4 (split; [assumption|]).
  exact (upload_missing_file h self (set_id self (JInt 3)) world0 tt "OK" [p1_entry] true
           H1 H2 H3 H4).
Defined.

Lemma getitem_not_prov (v : json) (k : string) (e : exn) :
  getitem v k = Raise e -> forall m, e <> ProvisionerError m.
Proof.
  destruct v; simpl; try (intros H; injection H as <-; discriminate).
  destruct (assoc k kvs); [discriminate|]. intros H; injection H as <-; discriminate.
Qed.

(** A listing whose first entry not skipped by name comparison has no
    ['name'] key (or is not a dict): the [KeyError] (or [TypeError]) of
    [preseed['name']] escapes both uploaders and both [run_module]s (only
    [ProvisionerError] is caught), after the listing GET and before any
    POST or PUT. *)
Theorem upload_malformed_listing {S} (handle : S -> request -> S * response)
    (self : uploader) (w : world S) (s1 : S) (rs : string) (pre post : list json)
    (e : json) (ex : exn)
    (Hget : handle (srv w) (Get (u_authhead self) (preseed_list_url (u_url self)))
            = (s1, mkResponse 200 rs (JList (pre ++ e :: post))))
    (Hpre : Forall (named_other (u_name self)) pre)
    (He : getitem e "name" = Raise ex) :
  MrpPreseed.upload_preseed handle self w
  = (Raise ex, after_request w s1 (Get (u_authhead self) (preseed_list_url (u_url self))))
  /\ PreseedUploadModule.upload_preseed handle self w
     = (Raise ex, after_request w s1 (Get (u_authhead self) (preseed_list_url (u_url self))))
  /\ fst (MrpPreseed.run_module handle self w) = Raise ex
  /\ fst (PreseedUploadModule.run_module handle self w) = Raise ex.
Proof.
  assert (Hscan : scan_preseeds self (pre ++ e :: post) = Raise ex).
  { rewrite scan_preseeds_skip by exact Hpre. simpl. rewrite He. reflexivity. }
  pose proof (check_for_existence_ok handle self w s1 rs _ _ Hget Hscan) as Hc.
  pose proof (getitem_not_prov e "name" ex He) as Hnp.
  set (w1 := after_request w s1 (Get (u_authhead self) (preseed_list_url (u_url self)))) in *.
  assert (Hc' : try_prov (check_for_existence handle self) w
                = (@Raise (msg + (uploader * bool)) ex, w1)).
  { unfold try_prov. rewrite Hc. destruct ex; try reflexivity. exfalso; eapply Hnp; reflexivity. }
  assert (HB : MrpPreseed.upload_preseed handle self w = (Raise ex, w1)).
  { unfold MrpPreseed.upload_preseed, bind at 1. rewrite Hc'. reflexivity. }
  assert (HA : PreseedUploadModule.upload_preseed handle self w = (Raise ex, w1)).
  { unfold PreseedUploadModule.upload_preseed, bind at 1. rewrite Hc'. reflexivity. }
  split; [exact HB|]. split; [exact HA|]. split.
  - rewrite (run_module_upload handle self w w1 _ HB).
    destruct ex; try reflexivity. exfalso; eapply Hnp; reflexivity.
  - unfold PreseedUploadModule.run_module, bind at 1, try_prov. rewrite HA.
    destruct ex; try reflexivity. exfalso; eapply Hnp; reflexivity.
Qed.

Definition nameless_entry : json := JObj [("id", JInt 4)].

Lemma upload_malformed_listing_witness :
  let self := p1_uploader "./p1.txt" in
  let h := listing_service [nameless_entry; p1_entry] in
  let w1 := after_request files_p1 tt (Get (u_authhead self) (preseed_list_url (u_url self))) in
  h (srv files_p1) (Get (u_authhead self) (preseed_list_url (u_url self)))
    = (tt, mkResponse 200 "OK" (JList ([] ++ nameless_entry :: [p1_entry])))
  /\ Forall (named_other (u_name self)) []
  /\ getitem nameless_entry "name" = Raise KeyError
  /\ MrpPreseed.upload_preseed h self files_p1 = (Raise KeyError, w1)
  /\ PreseedUploadModule.upload_preseed h self files_p1 = (Raise KeyError, w1)
  /\ fst (MrpPreseed.run_module h self files_p1) = Raise KeyError
  /\ fst (PreseedUploadModule.run_module h self files_p1) = Raise KeyError.
Proof.
  intros self h w1.
  assert (H1 : h (srv files_p1) (Get (u_authhead self) (preseed_list_url (u_url self)))
               = (tt, mkResponse 200 "OK" (JList ([] ++ nameless_entry :: [p1_entry]))))
    by reflexivity.
  assert (H2 : Forall (named_other (u_name self)) []) by constructor.
  assert (H3 : getitem nameless_entry "name" = Raise KeyError) by reflexivity.
  do 3 (split; [assumption|]).
  exact (upload_malformed_listing h self files_p1 tt "OK" [] [p1_entry] nameless_entry
           KeyError H1 H2 H3).
Defined.

Definition status_ok : json := JObj [("status", JStr "ok")].

(** The POST branch of [preseed_upload_module.py], shared by a successful
    and a failed existence check. *)
Lemma upload_module_post_branch {S} (handle : S -> request -> S * response)
    (self : uploader) (w1 : world S) (s2 : S) (c : string) (r2 : response) :
  ne_minus1 (u_id self) = false ->
  lookup_file (u_file self) (files w1) = Some c ->
  handle (srv w1) (Post (u_authhead self) (urljoin (u_url self) "/api/v1/preseed")
                     (preseed_doc self c)) = (s2, r2) ->
  (if ne_minus1 (u_id self) then PreseedUploadModule.modify_preseed handle self
   else
     preseed <- get_preseed_from_file self ;;
     let url := urljoin (u_url self) "/api/v1/preseed" in
     r <- send handle (Post (u_authhead self) url preseed) ;;
     if negb (status_code r =? 201) then
       raise (ProvisionerError (MsgPostPreseed (u_name self) (status_code r) (reason r)))
     else ret tt) w1
  = (if status_code r2 =? 201 then Ret tt
     else Raise (ProvisionerError (MsgPostPreseed (u_name self) (status_code r2) (reason r2))),
     after_request w1 s2 (Post (u_authhead self) (urljoin (u_url self) "/api/v1/preseed")
                            (preseed_doc self c))).
Proof.
  intros Hid Hf Hpost. rewrite Hid.
  unfold get_preseed_from_file, bind at 1 2. rewrite (read_file_ok _ _ w1 Hf).
  unfold ret, bind, send. rewrite Hpost.
  destruct (status_code r2 =? 201); reflexivity.
Qed.

Lemma upload_module_result {S} (handle : S -> request -> S * response)
    (self : uploader) (w w' : world S) (o : outcome unit) :
  PreseedUploadModule.upload_preseed handle self w = (o, w') ->
  PreseedUploadModule.run_module handle self w
  = (match o with
     | Ret _ => Ret (ModuleExit status_ok)
     | Raise (ProvisionerError e) => Ret (ModuleFail (JStr (render e)))
     | Raise e => Raise e
     end, w').
Proof.
  intros H. unfold PreseedUploadModule.run_module, bind, try_prov. rewrite H.
  destruct o as [[]|[]]; reflexivity.
Qed.

(** [preseed_upload_module.py] has no ["/dev/null"] guard: when no listed
    preseed has the name, a fresh uploader POSTs the document built from
    whatever the file holds (["/dev/null"] gives an empty content), and
    [run_module] exits with [{'status': 'ok'}] on 201, fails with "Error
    posting preseed" otherwise. *)
Theorem upload_module_post {S} (handle : S -> request -> S * response)
    (self : uploader) (w : world S) (s1 s2 : S) (rs : string) (l : list json)
    (c : string) (r2 : response)
    (Hget : handle (srv w) (Get (u_authhead self) (preseed_list_url (u_url self)))
            = (s1, mkResponse 200 rs (JList l)))
    (Habs : Forall (named_other (u_name self)) l)
    (Hid : ne_minus1 (u_id self) = false)
    (Hf : lookup_file (u_file self) (files w) = Some c)
    (Hpost : handle s1 (Post (u_authhead self) (urljoin (u_url self) "/api/v1/preseed")
                          (preseed_doc self c)) = (s2, r2)) :
  PreseedUploadModule.run_module handle self w
  = (if status_code r2 =? 201 then Ret (ModuleExit status_ok)
     else Ret (ModuleFail (JStr (render (MsgPostPreseed (u_name self) (status_code r2)
                                            (reason r2))))),
     after_request (after_request w s1 (Get (u_authhead self) (preseed_list_url (u_url self))))
       s2 (Post (u_authhead self) (urljoin (u_url self) "/api/v1/preseed") (preseed_doc self c))).
Proof.
  set (w1 := after_request w s1 (Get (u_authhead self) (preseed_list_url (u_url self)))).
  assert (HA : PreseedUploadModule.upload_preseed handle self w
               = (if status_code r2 =? 201 then Ret tt
                  else Raise (ProvisionerError (MsgPostPreseed (u_name self) (status_code r2)
                                                  (reason r2))),
                  after_request w1 s2 (Post (u_authhead self)
                                         (urljoin (u_url self) "/api/v1/preseed")
                                         (preseed_doc self c)))).
  { unfold PreseedUploadModule.upload_preseed. unfold bind at 1 2, try_prov.
    rewrite (check_for_existence_ok handle self w s1 rs l _ Hget (scan_preseeds_absent self l Habs)).
    unfold ret. cbn iota beta.
    exact (upload_module_post_branch handle self w1 s2 c r2 Hid Hf Hpost). }
  rewrite (upload_module_result handle self w _ _ HA).
  destruct (status_code r2 =? 201); reflexivity.
Qed.

Definition devnull_world : world mrp_state :=
  mkWorld (mkMrp [] 1) 0 [("/dev/null", "")] [].

Lemma upload_module_post_witness :
  let self := p1_uploader "/dev/null" in
  let h := mrp_service base_url in
  let doc := preseed_doc self "" in
  let post := Post (u_authhead self) (urljoin (u_url self) "/api/v1/preseed") doc in
  let created := mkResponse 201 "CREATED" (with_id (JInt 1) doc) in
  let s2 := mkMrp [with_id (JInt 1) doc] 2 in
  h (srv devnull_world) (Get (u_authhead self) (preseed_list_url (u_url self)))
    = (mkMrp [] 1, mkResponse 200 "OK" (JList []))
  /\ Forall (named_other (u_name self)) []
  /\ ne_minus1 (u_id self) = false
  /\ lookup_file (u_file self) (files devnull_world) = Some ""
  /\ h (mkMrp [] 1) post = (s2, created)
  /\ PreseedUploadModule.run_module h self devnull_world
     = (if status_code created =? 201 then Ret (ModuleExit status_ok)
        else Ret (ModuleFail (JStr (render (MsgPostPreseed (u_name self)
                                               (status_code created) (reason created))))),
        after_request (after_request devnull_world (mkMrp [] 1)
                         (Get (u_authhead self) (preseed_list_url (u_url self)))) s2 post).
Proof.
  intros self h doc post created s2.
  assert (H1 : h (srv devnull_world) (Get (u_authhead self) (preseed_list_url (u_url self)))
               = (mkMrp [] 1, mkResponse 200 "OK" (JList []))) by reflexivity.
  assert (H2 : Forall (named_other (u_name self)) []) by constructor.
  assert (H3 : ne_minus1 (u_id self) = false) by reflexivity.
  assert (H4 : lookup_file (u_file self) (files devnull_world) = Some "") by reflexivity.
  assert (H5 : h (mkMrp [] 1) post = (s2, created)) by reflexivity.
  do 5 (split; [assumption|]).
  exact (upload_module_post h self devnull_world (mkMrp [] 1) s2 "OK" [] "" created
           H1 H2 H3 H4 H5).
Defined.

(** [preseed_upload_module.py] when a listed preseed has the name (the
    first such entry has id [vid]): one PUT of the document built from the
    file at [/api/v1/preseed/<vid>], whatever the file is, and [run_module]
    exits with [{'status': 'ok'}] on 200, fails with "Error putting
    preseed" otherwise. *)
Theorem upload_module_put {S} (handle : S -> request -> S * response)
    (self : uploader) (w : world S) (s1 s2 : S) (rs : string)
    (pre post : list json) (e vid : json) (c : string) (r2 : response)
    (Hget : handle (srv w) (Get (u_authhead self) (preseed_list_url (u_url self)))
            = (s1, mkResponse 200 rs (JList (pre ++ e :: post))))
    (Hpre : Forall (named_other (u_name self)) pre)
    (Hn : getitem e "name" = Ret (JStr (u_name self)))
    (Hi : getitem e "id" = Ret vid)
    (Hvid : ne_minus1 vid = true)
    (Hf : lookup_file (u_file self) (files w) = Some c)
    (Hput : handle s1 (Put (u_authhead self) (preseed_url (u_url self) vid)
                         (preseed_doc self c)) = (s2, r2)) :
  PreseedUploadModule.run_module handle self w
  = (if status_code r2 =? 200 then Ret (ModuleExit status_ok)
     else Ret (ModuleFail (JStr (render (MsgPutPreseed (u_name self) vid (status_code r2)
                                            (reason r2))))),
     after_request (after_request w s1 (Get (u_authhead self) (preseed_list_url (u_url self))))
       s2 (Put (u_authhead self) (preseed_url (u_url self) vid) (preseed_doc self c))).
Proof.
  set (w1 := after_request w s1 (Get (u_authhead self) (preseed_list_url (u_url self)))).
  assert (HA : PreseedUploadModule.upload_preseed handle self w
               = (if status_code r2 =? 200 then Ret tt
                  else Raise (ProvisionerError (MsgPutPreseed (u_name self) vid
                                                  (status_code r2) (reason r2))),
                  after_request w1 s2 (Put (u_authhead self) (preseed_url (u_url self) vid)
                                         (preseed_doc self c)))).
  { unfold PreseedUploadModule.upload_preseed. unfold bind at 1 2, try_prov.
    rewrite (check_for_existence_ok handle self w s1 rs _ _ Hget
               (scan_preseeds_found self pre post e vid Hpre Hn Hi)).
    unfold ret. cbn iota beta. cbn [u_id set_id]. rewrite Hvid.
    unfold PreseedUploadModule.modify_preseed. cbn [u_id set_id]. rewrite Hvid. cbn [negb].
    assert (Hdoc : preseed_doc (set_id self vid) c = preseed_doc self c) by reflexivity.
    unfold bind, get_preseed_from_file, read_file, send, ret, raise.
    cbn [after_request files srv clock log u_file u_id u_url u_name u_authhead set_id].
    unfold bind. cbn [after_request files srv clock log].
    rewrite Hf. cbn [after_request files srv clock log]. rewrite Hdoc, Hput.
    destruct (status_code r2 =? 200); reflexivity. }
  rewrite (upload_module_result handle self w _ _ HA).
  destruct (status_code r2 =? 200); reflexivity.
Qed.

Definition p1_world : world mrp_state :=
  mkWorld (mkMrp [p1_entry] 4) 0 [("./p1.txt", "X")] [].

Lemma upload_module_put_witness :
  let self := p1_uploader "./p1.txt" in
  let h := mrp_service base_url in
  let doc := preseed_doc self "X" in
  let put := Put (u_authhead self) (preseed_url (u_url self) (JInt 3)) doc in
  let r2 := mkResponse 200 "OK" (with_id (JInt 3) doc) in
  let s2 := mkMrp [with_id (JInt 3) doc] 4 in
  h (srv p1_world) (Get (u_authhead self) (preseed_list_url (u_url self)))
    = (srv p1_world, mkResponse 200 "OK" (JList ([] ++ p1_entry :: [])))
  /\ Forall (named_other (u_name self)) []
  /\ getitem p1_entry "name" = Ret (JStr (u_name self))
  /\ getitem p1_entry "id" = Ret (JInt 3)
  /\ ne_minus1 (JInt 3) = true
  /\ lookup_file (u_file self) (files p1_world) = Some "X"
  /\ h (srv p1_world) put = (s2, r2)
  /\ PreseedUploadModule.run_module h self p1_world
     = (if status_code r2 =? 200 then Ret (ModuleExit status_ok)
        else Ret (ModuleFail (JStr (render (MsgPutPreseed (u_name self) (JInt 3)
                                               (status_code r2) (reason r2))))),
        after_request (after_request p1_world (srv p1_world)
                         (Get (u_authhead self) (preseed_list_url (u_url self)))) s2 put).
Proof.
  intros self h doc put r2 s2.
  assert (H1 : h (srv p1_world) (Get (u_authhead self) (preseed_list_url (u_url self)))
               = (srv p1_world, mkResponse 200 "OK" (JList ([] ++ p1_entry :: []))))
    by reflexivity.
  assert (H2 : Forall (named_other (u_name self)) []) by constructor.
  assert (H3 : getitem p1_entry "name" = Ret (JStr (u_name self))) by reflexivity.
  assert (H4 : getitem p1_entry "id" = Ret (JInt 3)) by reflexivity.
  assert (H5 : ne_minus1 (JInt 3) = true) by reflexivity.
  assert (H6 : lookup_file (u_file self) (files p1_world) = Some "X") by reflexivity.
  assert (H7 : h (srv p1_world) put = (s2, r2)) by reflexivity.
  do 7 (split; [assumption|]).
  exact (upload_module_put h self p1_world (srv p1_world) s2 "OK" [] [] p1_entry (JInt 3)
           "X" r2 H1 H2 H3 H4 H5 H6 H7).
Defined.

(** [preseed_upload_module.py] when the preseed listing answers with a
    status other than 200: the "Error fetching" message is printed, and a
    fresh uploader goes on to POST the document read from the file, as if
    the preseed did not exist; [run_module] then exits with
    [{'status': 'ok'}] on 201. *)
Theorem upload_module_listing_error {S} (handle : S -> request -> S * response)
    (self : uploader) (w : world S) (s1 s2 : S) (r : response) (c : string)
    (r2 : response)
    (Hget : handle (srv w) (Get (u_authhead self) (preseed_list_url (u_url self))) = (s1, r))
    (Hst : status_code r <> 200)
    (Hid : ne_minus1 (u_id self) = false)
    (Hf : lookup_file (u_file self) (files w) = Some c)
    (Hpost : handle s1 (Post (u_authhead self) (urljoin (u_url self) "/api/v1/preseed")
                          (preseed_doc self c)) = (s2, r2)) :
  PreseedUploadModule.run_module handle self w
  = (if status_code r2 =? 201 then Ret (ModuleExit status_ok)
     else Ret (ModuleFail (JStr (render (MsgPostPreseed (u_name self) (status_code r2)
                                            (reason r2))))),
     after_request
       (log_event (EvPrint (clock w) (render (MsgFetch (preseed_list_url (u_url self))
                                                (status_code r) (reason r))))
          (after_request w s1 (Get (u_authhead self) (preseed_list_url (u_url self)))))
       s2 (Post (u_authhead self) (urljoin (u_url self) "/api/v1/preseed") (preseed_doc self c))).
Proof.
  set (w1 := log_event (EvPrint (clock w) (render (MsgFetch (preseed_list_url (u_url self))
                                                     (status_code r) (reason r))))
               (after_request w s1 (Get (u_authhead self) (preseed_list_url (u_url self))))).
  assert (HA : PreseedUploadModule.upload_preseed handle self w
               = (if status_code r2 =? 201 then Ret tt
                  else Raise (ProvisionerError (MsgPostPreseed (u_name self) (status_code r2)
                                                  (reason r2))),
                  after_request w1 s2 (Post (u_authhead self)
                                         (urljoin (u_url self) "/api/v1/preseed")
                                         (preseed_doc self c)))).
  { unfold PreseedUploadModule.upload_preseed. unfold bind at 1 2, try_prov.
    rewrite (check_for_existence_fail handle self w s1 r Hget Hst).
    unfold bind at 1, print, ret. cbn iota beta.
    exact (upload_module_post_branch handle self w1 s2 c r2 Hid Hf Hpost). }
  rewrite (upload_module_result handle self w _ _ HA).
  destruct (status_code r2 =? 201); reflexivity.
Qed.

Lemma upload_module_listing_error_witness :
  let self := p1_uploader "./p1.txt" in
  let h := broken_listing_service in
  let doc := preseed_doc self "X" in
  let post := Post (u_authhead self) (urljoin (u_url self) "/api/v1/preseed") doc in
  let bad := mkResponse 500 "INTERNAL SERVER ERROR" (JObj []) in
  h (srv files_p1) (Get (u_authhead self) (preseed_list_url (u_url self))) = (tt, bad)
  /\ status_code bad <> 200
  /\ ne_minus1 (u_id self) = false
  /\ lookup_file (u_file self) (files files_p1) = Some "X"
  /\ h tt post = (tt, mkResponse 201 "CREATED" doc)
  /\ PreseedUploadModule.run_module h self files_p1
     = (if 201 =? 201 then Ret (ModuleExit status_ok)
        else Ret (ModuleFail (JStr (render (MsgPostPreseed (u_name self) 201 "CREATED")))),
        after_request
          (log_event (EvPrint (clock files_p1)
                        (render (MsgFetch (preseed_list_url (u_url self)) 500
                                   "INTERNAL SERVER ERROR")))
             (after_request files_p1 tt (Get (u_authhead self) (preseed_list_url (u_url self)))))
          tt post).
Proof.
  intros self h doc post bad.
  assert (H1 : h (srv files_p1) (Get (u_authhead self) (preseed_list_url (u_url self)))
               = (tt, bad)) by reflexivity.
  assert (H2 : status_code bad <> 200) by discriminate.
  assert (H3 : ne_minus1 (u_id self) = false) by reflexivity.
  assert (H4 : lookup_file (u_file self) (files files_p1) = Some "X") by reflexivity.
  assert (H5 : h tt post = (tt, mkResponse 201 "CREATED" doc)) by reflexivity.
  do 5 (split; [assumption|]).
  exact (upload_module_listing_error h self files_p1 tt tt bad "X"
           (mkResponse 201 "CREATED" doc) H1 H2 H3 H4 H5).
Defined.

(** [w'] is [w], or [w] after one POST or PUT. *)
Definition at_most_mutation {S} (w w' : world S) : Prop :=
  w' = w \/ exists s rq, is_mutation rq = true /\ w' = after_request w s rq.

Lemma snd_try_prov {S A} (m : M S A) (w : world S) : snd (try_prov m w) = snd (m w).
Proof. unfold try_prov. destruct (m w) as [[a|[]] w']; reflexivity. Qed.

Lemma check_for_existence_world {S} (handle : S -> request -> S * response)
    (self : uploader) (w : world S) :
  exists s1, snd (check_for_existence handle self w)
             = after_request w s1 (Get (u_authhead self) (preseed_list_url (u_url self))).
Proof.
  unfold check_for_existence, bind, send.
  destruct (handle (srv w) (Get (u_authhead self) (preseed_list_url (u_url self))))
    as [s1 r].
  exists s1. destruct (negb (status_code r =? 200)); [reflexivity|].
  unfold lift. destruct (py_iter (body r)); reflexivity.
Qed.

Ltac mutation_step h :=
  match goal with
  | |- context [h ?s ?rq] =>
      let s' := fresh "s" in let r := fresh "r" in
      destruct (h s rq) as [s' r];
      right; exists s', rq; split; [reflexivity|];
      repeat match goal with |- context [if ?c then _ else _] => destruct c end;
      reflexivity
  end.

Lemma mrp_modify_world {S} (handle : S -> request -> S * response)
    (self : uploader) (w : world S) :
  at_most_mutation w (snd (MrpPreseed.modify_preseed handle self w)).
Proof.
  unfold MrpPreseed.modify_preseed. destruct (negb (ne_minus1 (u_id self)));
    [left; reflexivity|].
  unfold get_preseed_from_file, read_file, bind, send, ret, raise.
  destruct (lookup_file (u_file self) (files w)); [|left; reflexivity].
  mutation_step handle.
Qed.



Lemma shape_requests {S} (w w1 w' : world S) (pre : list event) (g : request) :
  log w1 = (log w ++ pre)%list -> requests_of pre = [g] -> clock w1 = clock w ->
  at_most_mutation w1 w' ->
  exists evs, log w' = (log w ++ evs)%list /\ clock w' = clock w
              /\ (requests_of evs = [g]
                  \/ exists rq, is_mutation rq = true /\ requests_of evs = [g; rq]).
Proof.
  intros Hl Hr Hc [->|[s [rq [Hm ->]]]].
  - exists pre. auto.
  - exists (pre ++ [EvReq (clock w1) rq])%list. cbn [after_request log clock].
    rewrite Hl, app_assoc. split; [reflexivity|]. split; [exact Hc|].
    right. exists rq. split; [exact Hm|]. rewrite requests_of_app, Hr. reflexivity.
Qed.

(** Whatever the service answers and whatever the files hold, the
    [upload_preseed] of [mr_provisioner_preseed.py] sends the listing GET
    first, then at most one more request, which is a POST or a PUT; it
    never sleeps. *)
Theorem mrp_upload_requests {S} (handle : S -> request -> S * response)
    (self : uploader) (w : world S) :
  exists evs,
    log (snd (MrpPreseed.upload_preseed handle self w)) = (log w ++ evs)%list
    /\ clock (snd (MrpPreseed.upload_preseed handle self w)) = clock w
    /\ (requests_of evs = [Get (u_authhead self) (preseed_list_url (u_url self))]
        \/ exists rq, is_mutation rq = true
                      /\ requests_of evs
                         = [Get (u_authhead self) (preseed_list_url (u_url self)); rq]).
Proof.
  destruct (check_for_existence_world handle self w) as [s1 Hw1].
  set (g := Get (u_authhead self) (preseed_list_url (u_url self))) in *.
  set (w1 := after_request w s1 g) in *.
  apply (shape_requests w w1 _ [EvReq (clock w) g] g); try reflexivity.
  unfold MrpPreseed.upload_preseed, bind at 1.
  destruct (try_prov (check_for_existence handle self) w) as [o w1'] eqn:E.
  assert (Hw : w1' = w1) by (rewrite <- Hw1, <- snd_try_prov, E; reflexivity).
  subst w1'.
  destruct o as [[e|[self' b]]|e]; cbn iota beta; try (left; reflexivity).
  destruct (negb b && String.eqb (u_file self') "/dev/null"); [left; reflexivity|].
  destruct (ne_minus1 (u_id self') && negb (String.eqb (u_file self') "/dev/null")).
  - unfold bind at 1.
    destruct (try_prov (MrpPreseed.modify_preseed handle self') w1) as [o2 w2] eqn:E2.
    pose proof (mrp_modify_world handle self' w1) as Hm.
    rewrite <- snd_try_prov, E2 in Hm.
    destruct o2 as [[e|res]|e]; exact Hm.
  - destruct (negb (String.eqb (u_file self') "/dev/null")); [|left; reflexivity].
    unfold get_preseed_from_file, read_file, bind, send, ret, raise.
    destruct (lookup_file (u_file self') (files w1)); [|left; reflexivity].
    mutation_step handle.
Qed.



Lemma netboot_init_world {S} (handle : S -> request -> S * response)
    (url tok name : string) (w : world S) :
  exists s1, snd (NetbootSwitcher.init handle url tok name w)
             = after_request w s1 (Get tok (machine_query_url url name)).
Proof.
  unfold NetbootSwitcher.init, NetbootSwitcher.get_machine_by_name, bind, send.
  destruct (handle (srv w) (Get tok (machine_query_url url name))) as [s1 r].
  exists s1. destruct (negb (status_code r =? 200)); [reflexivity|].
  unfold lift. destruct (py_len (body r)) as [n|]; [|reflexivity].
  destruct (n =? 0); [reflexivity|]. destruct (n >? 1); [reflexivity|].
  destruct (index0 (body r)); reflexivity.
Qed.

(** The world after [time.sleep(d)]. *)
Definition slept {S} (w : world S) (d : Z) : world S :=
  mkWorld (srv w) (clock w + d) (files w) (log w ++ [EvSleep (clock w) d]).

Lemma do_timeout_cases {S} (handle : S -> request -> S * response)
    (self : NetbootSwitcher.t) (timeout : string) (w : world S) :
  (exists e, NetbootSwitcher.do_timeout self timeout w = (Raise e, w))
  \/ exists d, py_int timeout = Ret d /\ 0 <= d < 9223372037
               /\ NetbootSwitcher.do_timeout self timeout w = (Ret tt, slept w d).
Proof.
  unfold NetbootSwitcher.do_timeout, bind, lift, sleep.
  destruct (py_int timeout) as [d|e] eqn:Hd; [|left; eexists; reflexivity].
  destruct ((d * 1000000000 >? 9223372036854775807)
            || (d * 1000000000 <? -9223372036854775808)) eqn:Ho;
    [left; eexists; reflexivity|].
  destruct (d <? 0) eqn:Hlt; [left; eexists; reflexivity|].
  apply orb_false_iff in Ho as [Ho _]. rewrite Z.gtb_ltb, Z.ltb_ge in Ho.
  apply Z.ltb_ge in Hlt.
  right. exists d. split; [reflexivity|]. split; [lia|reflexivity].
Qed.

Lemma switch_netboot_flag_world {S} (handle : S -> request -> S * response)
    (self : NetbootSwitcher.t) (w : world S) :
  at_most_mutation w (snd (NetbootSwitcher.switch_netboot_flag handle self w)).
Proof.
  unfold NetbootSwitcher.switch_netboot_flag, bind, lift, send, ret, raise.
  destruct (getitem (NetbootSwitcher.machine_json self) "id"); [|left; reflexivity].
  destruct (setitem (NetbootSwitcher.machine_json self) "netboot_enabled" (JBool false));
    [|left; reflexivity].
  mutation_step handle.
Qed.

(** Whatever the service answers, [run_module] of the netboot switch sends
    one or two machine searches; a POST or PUT only ever comes after both,
    after a completed [time.sleep(int(timeout))] (so [int(timeout)] is a
    number [d] with [0 <= d < 9223372037]), stamped [d] seconds after the
    start, and there is at most one. *)
Theorem netboot_put_only_after_sleep {S} (handle : S -> request -> S * response)
    (name url tok timeout : string) (w : world S) :
  exists evs,
    log (snd (NetbootSwitcher.run_module handle name url tok timeout w)) = (log w ++ evs)%list
    /\ (evs = [EvReq (clock w) (Get tok (machine_query_url url name))]
        \/ evs = [EvReq (clock w) (Get tok (machine_query_url url name));
                  EvReq (clock w) (Get tok (machine_query_url url name))]
        \/ exists d, py_int timeout = Ret d /\ 0 <= d < 9223372037
             /\ (evs = [EvReq (clock w) (Get tok (machine_query_url url name));
                        EvReq (clock w) (Get tok (machine_query_url url name));
                        EvSleep (clock w) d]
                 \/ exists rq, is_mutation rq = true
                      /\ evs = [EvReq (clock w) (Get tok (machine_query_url url name));
                                EvReq (clock w) (Get tok (machine_query_url url name));
                                EvSleep (clock w) d; EvReq (clock w + d) rq])).
Proof.
  set (g := Get tok (machine_query_url url name)).
  destruct (netboot_init_world handle url tok name w) as [s1 Hw1].
  set (w1 := after_request w s1 g) in *.
  remember (snd (NetbootSwitcher.run_module handle name url tok timeout w)) as res eqn:Hres.
  unfold NetbootSwitcher.run_module, bind at 1 in Hres.
  destruct (NetbootSwitcher.init handle url tok name w) as [o1 w1'] eqn:E1.
  cbn [snd] in Hw1. subst w1'.
  change (after_request w s1 (Get tok (machine_query_url url name))) with w1 in *.
  destruct o1 as [sw|e]; cbn iota beta in Hres.
  2:{ subst res. exists [EvReq (clock w) g]. split; [reflexivity|]. left; reflexivity. }
  destruct (netboot_init_world handle url tok name w1) as [s2 Hw2].
  set (w2 := after_request w1 s2 g) in *.
  assert (Hlog2 : log w2 = (log w ++ [EvReq (clock w) g; EvReq (clock w) g])%list)
    by (cbn [w2 w1 after_request log clock]; rewrite <- app_assoc; reflexivity).
  unfold bind at 1 in Hres.
  match type of Hres with
  | context [try_prov ?m w1] =>
      destruct (try_prov m w1) as [o2 w3] eqn:E2;
      assert (Hw3 : snd (m w1) = w3) by (rewrite <- snd_try_prov, E2; reflexivity)
  end.
  assert (Hres3 : res = w3).
  { subst res. destruct o2 as [[e|v]|e]; try reflexivity.
    unfold bind, lift, ret. destruct (py_in "error" v) as [[|]|]; try reflexivity.
    destruct (getitem v "error"); reflexivity. }
  clear Hres E2. subst res.
  unfold bind at 1 in Hw3.
  destruct (NetbootSwitcher.init handle url tok name w1) as [o3 w2'] eqn:E3.
  cbn [snd] in Hw2. subst w2'.
  change (after_request w1 s2 (Get tok (machine_query_url url name))) with w2 in *.
  destruct o3 as [sw2|e]; cbn iota beta in Hw3.
  2:{ subst w3. exists [EvReq (clock w) g; EvReq (clock w) g]. split; [exact Hlog2|].
      right; left; reflexivity. }
  unfold bind at 1 in Hw3.
  destruct (do_timeout_cases handle sw2 timeout w2) as [[e Ht]|[d [Hd [Hd0 Ht]]]];
    rewrite Ht in Hw3; cbn iota beta in Hw3.
  { subst w3. exists [EvReq (clock w) g; EvReq (clock w) g]. split; [exact Hlog2|].
    right; left; reflexivity. }
  unfold bind at 1 in Hw3.
  pose proof (switch_netboot_flag_world handle sw2 (slept w2 d)) as Hsw.
  destruct (NetbootSwitcher.switch_netboot_flag handle sw2 (slept w2 d)) as [o4 w4] eqn:E4.
  assert (Hw34 : w3 = w4) by (subst w3; destruct o4; reflexivity).
  clear Hw3 E4. subst w3. cbn [snd] in Hsw.
  destruct Hsw as [->|[s [rq [Hm ->]]]].
  - exists [EvReq (clock w) g; EvReq (clock w) g; EvSleep (clock w) d].
    split.
    + unfold slept. cbn [log]. rewrite Hlog2, <- app_assoc. reflexivity.
    + right; right. exists d. split; [exact Hd|]. split; [exact Hd0|]. left; reflexivity.
  - exists [EvReq (clock w) g; EvReq (clock w) g; EvSleep (clock w) d;
            EvReq (clock w + d) rq].
    split.
    + unfold after_request at 1, slept. cbn [log]. rewrite Hlog2, <- !app_assoc.
      reflexivity.
    + right; right. exists d. split; [exact Hd|]. split; [exact Hd0|].
      right. exists rq. split; [exact Hm|reflexivity].
Qed.
